(** * Perfume store bot: a shallow embedding of [bot.py]

    The development follows the layout of the program: the string
    operations the bot borrows from Python ([lower], [title], [split],
    [in]), the catalog records, [load_training_data], the three matchers
    of [PerfumeAI], [generate_response], and the two helpers behind the
    HTTP endpoints ([get_suggestions], [get_categories]).

    Modelling conventions.
    - A Python [str] is a [string]; case mapping and white space are the
      ASCII ones (code points above 127 are left alone).
    - A catalog [dict] is a record whose fields are options: [None] is an
      absent key.  Values have the type the program expects of them.
    - Exceptions are values of [outcome]; the global random generator is a
      tape of draws threaded through [generate_response].
    - The loader comes twice: on documents of the expected shape, with
      the records above, and on any file ([Json.load_training_data]), with
      what [open], [json.load] and [print] can raise.
    - The order in which Python iterates over a [set] is a parameter. *)

From Stdlib Require Import String Ascii List ZArith QArith Bool Lia Permutation.
Import ListNotations.
Open Scope string_scope.

(* ================================================================== *)
(** ** Python string operations *)
(* ================================================================== *)

Module PyStr.

Definition is_upper (c : ascii) : bool :=
  let n := nat_of_ascii c in (65 <=? n)%nat && (n <=? 90)%nat.

Definition is_lower (c : ascii) : bool :=
  let n := nat_of_ascii c in (97 <=? n)%nat && (n <=? 122)%nat.

Definition to_lower (c : ascii) : ascii :=
  if is_upper c then ascii_of_nat (nat_of_ascii c + 32) else c.

Definition to_upper (c : ascii) : ascii :=
  if is_lower c then ascii_of_nat (nat_of_ascii c - 32) else c.

(** [s.lower()] *)
Fixpoint lower (s : string) : string :=
  match s with
  | EmptyString => EmptyString
  | String c s' => String (to_lower c) (lower s')
  end.

(** [s.title()]: a cased character is upper-cased when the character
    before it is not cased, and lower-cased otherwise. *)
Fixpoint title_from (previous_is_cased : bool) (s : string) : string :=
  match s with
  | EmptyString => EmptyString
  | String c s' =>
      if is_lower c || is_upper c
      then String (if previous_is_cased then to_lower c else to_upper c)
                  (title_from true s')
      else String c (title_from false s')
  end.

Definition title (s : string) : string := title_from false s.

(** [str.isspace] on the ASCII range: TAB..CR, FS..US and the blank. *)
Definition is_space (c : ascii) : bool :=
  let n := nat_of_ascii c in
  ((9 <=? n)%nat && (n <=? 13)%nat) || ((28 <=? n)%nat && (n <=? 32)%nat).

(** [s.split()] with no separator: maximal runs of non-blank characters.
    [word] is the run being read. *)
Fixpoint split_from (word : string) (s : string) : list string :=
  match s with
  | EmptyString => if String.eqb word "" then [] else [word]
  | String c s' =>
      if is_space c
      then (if String.eqb word "" then split_from "" s'
            else word :: split_from "" s')
      else split_from (word ++ String c "") s'
  end.

Definition split (s : string) : list string := split_from "" s.

(** [needle in haystack] on two strings. *)
Fixpoint contains (needle haystack : string) : bool :=
  prefix needle haystack ||
  match haystack with
  | EmptyString => false
  | String _ rest => contains needle rest
  end.

(** [any(word in text for word in words)] *)
Definition any_in (words : list string) (text : string) : bool :=
  existsb (fun word => contains word text) words.

(** [sep.join(parts)] *)
Definition join (sep : string) (parts : list string) : string :=
  String.concat sep parts.

Definition nl : string := String (ascii_of_nat 10) "".

End PyStr.
Import PyStr.

(* ================================================================== *)
(** ** Exceptions *)
(* ================================================================== *)

Inductive exn : Type :=
| KeyError (key : string)
| AttributeError (what : string)
| TypeError (what : string)
| UnicodeDecodeError (what : string)
| UnicodeEncodeError (what : string)
| OSError (what : string)
| RecursionError (what : string).

Inductive outcome (A : Type) : Type :=
| Return (a : A)
| Raise (e : exn).
Arguments Return {A} a.
Arguments Raise {A} e.

Definition bind {A B : Type} (m : outcome A) (k : A -> outcome B) : outcome B :=
  match m with
  | Return a => k a
  | Raise e => Raise e
  end.

Notation "x <- m ;; k" := (bind m (fun x => k))
  (at level 61, m at next level, right associativity).

(** [d[key]] on an optional field. *)
Definition subscript {A : Type} (key : string) (field : option A) : outcome A :=
  match field with
  | Some v => Return v
  | None => Raise (KeyError key)
  end.

(** [d.get(key, default)] *)
Definition get {A : Type} (field : option A) (default : A) : A :=
  match field with
  | Some v => v
  | None => default
  end.

(** Truth value of [d.get(key)] for a string field: present and not empty. *)
Definition truthy (field : option string) : bool :=
  match field with
  | Some s => negb (String.eqb s "")
  | None => false
  end.

(** A loop that appends to an accumulator and may raise. *)
Fixpoint for_each {A Acc : Type} (body : Acc -> A -> outcome Acc) (acc : Acc)
  (l : list A) : outcome Acc :=
  match l with
  | [] => Return acc
  | x :: rest => acc' <- body acc x ;; for_each body acc' rest
  end.

(** [[f(x) for x in l]] where [f] may raise. *)
Fixpoint map_each {A B : Type} (f : A -> outcome B) (l : list A) : outcome (list B) :=
  match l with
  | [] => Return []
  | x :: rest => y <- f x ;; ys <- map_each f rest ;; Return (y :: ys)
  end.

(* ================================================================== *)
(** ** The catalog *)
(* ================================================================== *)

(** A perfume as it sits in [training_data.json].  The price is only ever
    printed, so it is kept in its printed form. *)
Record perfume : Type := {
  p_id : option Z;
  p_name : option string;
  p_price : option string;
  p_category : option string;
  p_notes : option (list string);
  p_description : option string
}.

Record faq : Type := {
  f_question : option string;
  f_answer : option string
}.

Record intent : Type := {
  i_name : option string;
  i_patterns : option (list string);
  i_responses : option (list string)
}.

Definition set_id (p : perfume) (n : Z) : perfume :=
  {| p_id := Some n; p_name := p_name p; p_price := p_price p;
     p_category := p_category p; p_notes := p_notes p;
     p_description := p_description p |}.

(** [bool(perfume)]: a dict is true when it has a key. *)
Definition perfume_truthy (p : perfume) : bool :=
  match p_id p, p_name p, p_price p, p_category p, p_notes p, p_description p with
  | None, None, None, None, None, None => false
  | _, _, _, _, _, _ => true
  end.

(* ================================================================== *)
(** ** [load_training_data] *)
(* ================================================================== *)

(** The loader on documents that have the shape the program expects: an
    object whose three entries, where present, are lists of records.  The
    loader on any file, with everything that can go wrong on the way, is
    [Json.load_training_data] further down; on the documents of this
    section the two agree. *)

(** The object at the top of the file, with its three optional keys. *)
Record training_data : Type := {
  td_perfumes : option (list perfume);
  td_faqs : option (list faq);
  td_intents : option (list intent)
}.

(** What [json.load] can hand back: an object, or one of the other JSON
    values (none of which has a [get] method). *)
Inductive document : Type :=
| DocObject (data : training_data)
| DocArray
| DocString
| DocNumber
| DocBool
| DocNull.

(** The three ways [open] followed by [json.load] can end that the loader
    knows about. *)
Inductive source : Type :=
| FileNotFound
| InvalidJSON
| Parsed (doc : document).

Definition default_perfumes : list perfume :=
  [ {| p_id := Some 1%Z; p_name := Some "Floral Dream"; p_price := Some "45.99";
       p_category := Some "floral"; p_notes := None; p_description := None |};
    {| p_id := Some 2%Z; p_name := Some "Woody Essence"; p_price := Some "59.99";
       p_category := Some "woody"; p_notes := None; p_description := None |};
    {| p_id := Some 3%Z; p_name := Some "Citrus Splash"; p_price := Some "39.99";
       p_category := Some "citrus"; p_notes := None; p_description := None |} ].

(** [for i, perfume in enumerate(perfumes): if 'id' not in perfume:
    perfume['id'] = i + 1], with [i] the index of the head. *)
Fixpoint add_ids (i : Z) (perfumes : list perfume) : list perfume :=
  match perfumes with
  | [] => []
  | perfume :: rest =>
      (match p_id perfume with
       | None => set_id perfume (i + 1)
       | Some _ => perfume
       end) :: add_ids (i + 1) rest
  end.

Definition catalog : Type := (list perfume * list faq * list intent)%type.

Definition load_training_data (src : source) : outcome catalog :=
  match src with
  | Parsed (DocObject data) =>
      let perfumes := get (td_perfumes data) [] in
      let faqs := get (td_faqs data) [] in
      let intents := get (td_intents data) [] in
      Return (add_ids 0 perfumes, faqs, intents)
  | Parsed _ => Raise (AttributeError "get")
  | FileNotFound => Return (default_perfumes, [], [])
  | InvalidJSON => Return ([], [], [])
  end.

(* ================================================================== *)
(** ** The random generator *)
(* ================================================================== *)

(** The process-wide generator is a tape of draws; an exhausted tape
    keeps answering 0. *)
Definition rng : Type := list nat.

Definition randbelow (n : nat) (g : rng) : nat * rng :=
  match g with
  | [] => (0%nat, [])
  | x :: g' => (Nat.modulo x n, g')
  end.

(** [random.choice(seq)] on a non-empty sequence. *)
Definition choice {A : Type} (default : A) (seq : list A) (g : rng) : A * rng :=
  let (i, g') := randbelow (length seq) g in (nth i seq default, g').

Fixpoint remove_at {A : Type} (i : nat) (l : list A) : list A :=
  match l, i with
  | [], _ => []
  | _ :: rest, O => rest
  | x :: rest, S i' => x :: remove_at i' rest
  end.

(** [random.sample(population, k)]: [k] picks at distinct positions. *)
Fixpoint sample {A : Type} (population : list A) (k : nat) (g : rng)
  : list A * rng :=
  match k with
  | O => ([], g)
  | S k' =>
      let (i, g1) := randbelow (length population) g in
      match nth_error population i with
      | None => ([], g1)
      | Some x =>
          let (picked, g2) := sample (remove_at i population) k' g1 in
          (x :: picked, g2)
      end
  end.

(* ================================================================== *)
(** ** [PerfumeAI] *)
(* ================================================================== *)

Record PerfumeAI : Type := {
  perfumes : list perfume;
  faqs : list faq;
  intents : list intent
}.

(** [PerfumeAI()] over the module-level [PERFUMES, FAQS, INTENTS]. *)
Definition init (c : catalog) : PerfumeAI :=
  let '(ps, fs, ins) := c in {| perfumes := ps; faqs := fs; intents := ins |}.

(** *** [find_intent] *)

(** [pattern.lower() in msg_lower] for some pattern of the intent. *)
Definition intent_matches (msg_lower : string) (i : intent) : bool :=
  existsb (fun pattern => contains (lower pattern) msg_lower)
          (get (i_patterns i) []).

(** The hard-coded keyword groups tried after the stored intents. *)
Definition fallback_intent (msg_lower : string) : string :=
  if any_in ["hi"; "hello"; "hey"] msg_lower then "greeting"
  else if any_in ["recommend"; "suggest"] msg_lower then "recommendation"
  else if any_in ["price"; "how much"; "cost"] msg_lower then "price_inquiry"
  else if any_in ["floral"; "woody"; "citrus"; "fresh"; "oriental"] msg_lower
       then "category_query"
  else "unknown".

Definition find_intent (self : PerfumeAI) (message : string) : string :=
  let msg_lower := lower message in
  match find (intent_matches msg_lower) (intents self) with
  | Some i => get (i_name i) "unknown"
  | None => fallback_intent msg_lower
  end.

(** *** [answer_faq] *)

(** [faq_question.split()[:3]] of the lower-cased stored question. *)
Definition faq_keywords (f : faq) : list string :=
  firstn 3 (split (lower (get (f_question f) ""))).

Definition faq_matches (question_lower : string) (f : faq) : bool :=
  any_in (faq_keywords f) question_lower.

Definition answer_faq (self : PerfumeAI) (question : string) : option string :=
  let question_lower := lower question in
  match find (faq_matches question_lower) (faqs self) with
  | Some f => f_answer f
  | None => None
  end.

(** *** [find_perfume] *)

Definition name_matches (query_lower : string) (p : perfume) : bool :=
  contains (lower (get (p_name p) "")) query_lower.

Definition category_matches (query_lower : string) (p : perfume) : bool :=
  contains (lower (get (p_category p) "")) query_lower.

Definition note_matches (query_lower : string) (p : perfume) : bool :=
  existsb (fun note => contains (lower note) query_lower) (get (p_notes p) []).

Definition find_perfume (self : PerfumeAI) (query : string) : option perfume :=
  let query_lower := lower query in
  match find (name_matches query_lower) (perfumes self) with
  | Some p => Some p
  | None =>
      match find (category_matches query_lower) (perfumes self) with
      | Some p => Some p
      | None => find (note_matches query_lower) (perfumes self)
      end
  end.

(** *** [generate_response] *)

Record response : Type := {
  r_response : string;
  r_type : string;
  r_confidence : Q;
  r_perfume : option perfume;
  r_perfumes : option (list perfume)
}.

Definition greeting_responses : list string :=
  [ "👋 Hello! Welcome to our perfume store! How can I help you today?";
    "🌟 Welcome to our fragrance boutique! What scent are you looking for?";
    "🌸 Hello there! Ready to find your perfect fragrance?" ].

Definition fallback_responses : list string :=
  [ "I'm not sure I understood. Try asking about specific perfumes or categories.";
    "Could you be more specific? For example, ask about 'Floral Dream' or 'woody perfumes'.";
    "I'm here to help you find perfumes! Try asking for recommendations or checking prices." ].

Definition categories : list string :=
  ["floral"; "woody"; "citrus"; "fresh"; "oriental"].

(** Step 2, the card printed for a matched perfume. *)
Definition perfume_card (p : perfume) : outcome string :=
  name <- subscript "name" (p_name p) ;;
  price <- subscript "price" (p_price p) ;;
  let text := "**" ++ name ++ "**" ++ nl ++ nl in
  let text := text ++ "💰 Price: $" ++ price ++ nl in
  let text :=
    match p_category p with
    | Some c => text ++ "🌸 Category: " ++ title c ++ nl
    | None => text
    end in
  let text :=
    match p_notes p with
    | Some (n :: ns) => text ++ "🎀 Notes: " ++ join ", " (firstn 3 (n :: ns)) ++ nl
    | _ => text
    end in
  let text :=
    match p_description p with
    | Some d => text ++ nl ++ d
    | None => text
    end in
  Return text.

(** One turn of the loop of the recommendation branch. *)
Definition recommendation_line (text : string) (p : perfume) : outcome string :=
  name <- subscript "name" (p_name p) ;;
  price <- subscript "price" (p_price p) ;;
  let text := text ++ "⭐ **" ++ name ++ "** - $" ++ price ++ nl in
  Return match p_description p with
         | Some d => text ++ "   " ++ d ++ nl ++ nl
         | None => text
         end.

(** One turn of the loop of the price branch. *)
Definition price_line (text : string) (p : perfume) : outcome string :=
  name <- subscript "name" (p_name p) ;;
  price <- subscript "price" (p_price p) ;;
  Return (text ++ "• " ++ name ++ ": $" ++ price ++ nl).

(** One turn of the loop of the category branch. *)
Definition category_line (text : string) (p : perfume) : outcome string :=
  name <- subscript "name" (p_name p) ;;
  price <- subscript "price" (p_price p) ;;
  Return (text ++ "• **" ++ name ++ "** - $" ++ price ++ nl).

(** [p.get('category') == mentioned_category] *)
Definition in_category (mentioned_category : string) (p : perfume) : bool :=
  match p_category p with
  | Some c => String.eqb c mentioned_category
  | None => false
  end.

(** Step 4. *)
Definition fallback_step (g : rng) : outcome (response * rng) :=
  let (text, g') := choice "" fallback_responses g in
  Return ({| r_response := text; r_type := "fallback"; r_confidence := 0.3;
             r_perfume := None; r_perfumes := None |}, g').

(** Step 3. *)
Definition intent_step (self : PerfumeAI) (message : string) (g : rng)
  : outcome (response * rng) :=
  let intent := find_intent self message in
  if String.eqb intent "greeting" then
    let (text, g') := choice "" greeting_responses g in
    Return ({| r_response := text; r_type := "greeting"; r_confidence := 0.9;
               r_perfume := None; r_perfumes := None |}, g')
  else if String.eqb intent "recommendation" then
    match perfumes self with
    | [] => fallback_step g
    | _ :: _ =>
        let (recommended, g') :=
          sample (perfumes self) (Nat.min 3 (length (perfumes self))) g in
        text <- for_each recommendation_line
                  ("✨ **Top Recommendations:**" ++ nl ++ nl) recommended ;;
        Return ({| r_response := text; r_type := "recommendation";
                   r_confidence := 0.8;
                   r_perfume := None; r_perfumes := Some recommended |}, g')
    end
  else if String.eqb intent "price_inquiry" then
    match perfumes self with
    | [] => fallback_step g
    | _ :: _ =>
        text <- for_each price_line
                  ("💰 **Our Perfume Prices:**" ++ nl ++ nl)
                  (firstn 5 (perfumes self)) ;;
        Return ({| r_response := text; r_type := "price_info";
                   r_confidence := 0.7;
                   r_perfume := None; r_perfumes := None |}, g)
    end
  else if String.eqb intent "category_query" then
    match find (fun cat => contains cat (lower message)) categories with
    | None => fallback_step g
    | Some mentioned_category =>
        match filter (in_category mentioned_category) (perfumes self) with
        | [] => fallback_step g
        | filtered =>
            text <- for_each category_line
                      ("🌸 **" ++ title mentioned_category ++ " Perfumes:**"
                       ++ nl ++ nl) filtered ;;
            Return ({| r_response := text; r_type := "category_info";
                       r_confidence := 0.8;
                       r_perfume := None; r_perfumes := None |}, g)
        end
    end
  else fallback_step g.

Definition generate_response (self : PerfumeAI) (message : string) (g : rng)
  : outcome (response * rng) :=
  (* Step 1: Try to answer FAQ *)
  let faq_answer := answer_faq self message in
  if truthy faq_answer then
    Return ({| r_response := get faq_answer ""; r_type := "faq";
               r_confidence := 0.9;
               r_perfume := None; r_perfumes := None |}, g)
  else
    (* Step 2: Try to find perfume *)
    match find_perfume self message with
    | Some p =>
        if perfume_truthy p then
          text <- perfume_card p ;;
          Return ({| r_response := text; r_type := "perfume_info";
                     r_confidence := 0.8;
                     r_perfume := Some p; r_perfumes := None |}, g)
        else intent_step self message g
    | None => intent_step self message g
    end.

(* ================================================================== *)
(** ** Helpers of the HTTP layer *)
(* ================================================================== *)

(** [list(set(items))]: the distinct items, in the order [set_order] in
    which the set happens to be iterated. *)
Definition list_of_set (set_order : list string -> list string)
  (items : list string) : list string :=
  set_order (nodup string_dec items).

(** What is known of an iteration order: it only rearranges. *)
Definition rearranges (set_order : list string -> list string) : Prop :=
  forall l, Permutation l (set_order l).

Definition get_suggestions (set_order : list string -> list string)
  (PERFUMES : list perfume) (response_type message : string)
  : outcome (list string) :=
  let msg_lower := lower message in
  if String.eqb response_type "perfume_info" then
    Return ["Similar perfumes"; "Price range"; "Show all"; "Recommendations"]
  else if String.eqb response_type "faq" then
    Return ["More FAQs"; "Perfume catalog"; "Contact support"]
  else if any_in ["recommend"; "suggest"] msg_lower then
    let categories :=
      list_of_set set_order
        (map (fun p => title (get (p_category p) ""))
             (filter (fun p => truthy (p_category p)) PERFUMES)) in
    Return (firstn 3 categories ++ ["Show all"; "Prices"])%list
  else if any_in ["price"; "how much"; "cost"] msg_lower then
    names <- map_each (fun p => subscript "name" (p_name p)) (firstn 3 PERFUMES) ;;
    Return (names ++ ["All prices"; "Budget options"])%list
  else
    Return ["Recommend perfume"; "Show all"; "FAQs"; "Help"].

(** [GET /categories]; the value under the key ["categories"]. *)
Definition get_categories (set_order : list string -> list string)
  (PERFUMES : list perfume) : list string :=
  let categories :=
    list_of_set set_order
      (map (fun p => get (p_category p) "")
           (filter (fun p => truthy (p_category p)) PERFUMES)) in
  map title (filter (fun c => negb (String.eqb c "")) categories).

(* ================================================================== *)
(** ** The data written by [sample_training.py] *)
(* ================================================================== *)

(** The keys [questions] and [answers] of the sample perfumes are read by
    nothing in the bot and are left out. *)
Definition sample_perfumes : list perfume :=
  [ {| p_id := None; p_name := Some "Floral Dream"; p_price := Some "45.99";
       p_category := Some "floral";
       p_notes := Some ["Rose"; "Jasmine"; "Lily"; "Peony"];
       p_description :=
         Some "A delicate floral bouquet perfect for daytime wear" |};
    {| p_id := None; p_name := Some "Woody Essence"; p_price := Some "59.99";
       p_category := Some "woody";
       p_notes := Some ["Sandalwood"; "Cedar"; "Patchouli"; "Vetiver"];
       p_description := Some "Rich woody fragrance with warm undertones" |} ].

Definition sample_faqs : list faq :=
  [ {| f_question := Some "How long does perfume last?";
       f_answer := Some "Perfume longevity depends on concentration: Eau de Toilette lasts 3-4 hours, Eau de Parfum lasts 4-6 hours, and Parfum lasts 8+ hours." |};
    {| f_question := Some "What's the difference between EDP and EDT?";
       f_answer := Some "EDP (Eau de Parfum) has 15-20% fragrance oil and lasts longer. EDT (Eau de Toilette) has 5-15% oil and is lighter." |};
    {| f_question := Some "How should I store perfume?";
       f_answer := Some "Store perfume in a cool, dark place away from direct sunlight and temperature changes to preserve its scent." |} ].

Definition sample_intents : list intent :=
  [ {| i_name := Some "greeting";
       i_patterns := Some ["hello"; "hi"; "hey"; "good morning";
                           "good afternoon"; "greetings"];
       i_responses :=
         Some ["Hello! Welcome to our perfume store! How can I help you today?";
               "Hi there! Looking for a new fragrance today?";
               "Welcome! I'm here to help you find the perfect perfume."] |};
    {| i_name := Some "recommendation";
       i_patterns := Some ["recommend a perfume"; "suggest a fragrance";
                           "what should I buy"; "help me choose";
                           "what perfume is best"; "can you recommend"];
       i_responses :=
         Some ["I'd be happy to recommend a perfume! What type of scents do you prefer?";
               "Let me suggest some fragrances for you. Do you like floral, woody, or citrus scents?";
               "I can help you choose! Tell me about your scent preferences."] |};
    {| i_name := Some "price_inquiry";
       i_patterns := Some ["how much is"; "price of"; "cost";
                           "what's the price"; "how expensive is"; "price for"];
       i_responses :=
         Some ["I can check the price for you. Which perfume are you interested in?";
               "Let me look up the price. Which fragrance would you like to know about?";
               "I'll check the cost for you. What's the name of the perfume?"] |};
    {| i_name := Some "category_query";
       i_patterns := Some ["floral perfumes"; "woody fragrances"; "citrus scents";
                           "show me floral"; "what woody perfumes";
                           "oriental perfumes"];
       i_responses :=
         Some ["Let me show you those perfumes. Here's what we have in that category...";
               "I'll find those fragrances for you. Let me check our collection.";
               "Here are the perfumes in that category that we offer."] |} ].

Definition sample_data : training_data :=
  {| td_perfumes := Some sample_perfumes; td_faqs := Some sample_faqs;
     td_intents := Some sample_intents |}.

(** A perfume with only a name and a price, and one with a category too. *)
Definition named (name : string) : perfume :=
  {| p_id := None; p_name := Some name; p_price := Some "10.0";
     p_category := None; p_notes := None; p_description := None |}.

Definition categorised (name category : string) : perfume :=
  {| p_id := None; p_name := Some name; p_price := Some "10.0";
     p_category := Some category; p_notes := None; p_description := None |}.

(** Two products whose categories differ only by case. *)
Definition mixed_case_catalog : list perfume :=
  [categorised "Spring" "floral"; categorised "Summer" "Floral"].

(** A source whose first product brings its own identifier 2 and whose
    second product has none. *)
Definition colliding_data : training_data :=
  {| td_perfumes := Some [set_id (named "Amber") 2; named "Birch"];
     td_faqs := None; td_intents := None |}.

(** A product with a name before a product with an empty one. *)
Definition shadowed_catalog : list perfume := [named "rose"; named ""].

(** The identifier a product ends up with at index [i] of the source. *)
Definition with_position (i : nat) (p : perfume) : perfume :=
  match p_id p with
  | Some _ => p
  | None => set_id p (Z.of_nat i + 1)
  end.

(** A product that has an identifier and a category but no name. *)
Definition unnamed_perfume : perfume :=
  {| p_id := Some 1%Z; p_name := None; p_price := Some "10.0";
     p_category := Some "woody"; p_notes := None; p_description := None |}.

(** An intent without its canned responses. *)
Definition without_responses (i : intent) : intent :=
  {| i_name := i_name i; i_patterns := i_patterns i; i_responses := None |}.

(** A dict without any key. *)
Definition empty_perfume : perfume :=
  {| p_id := None; p_name := None; p_price := None; p_category := None;
     p_notes := None; p_description := None |}.


(** An FAQ that is on file with an empty answer. *)
Definition unanswered_faq : faq :=
  {| f_question := Some "Delivery times"; f_answer := Some "" |}.

(** The catalog contract of the data model: every product carries at
    least a name and a price. *)
Definition has_name_and_price (p : perfume) : Prop :=
  p_name p <> None /\ p_price p <> None.

(* ================================================================== *)
(** ** The endpoints *)
(* ================================================================== *)

(** How a request handler ends: with a body, with an [HTTPException] it
    raised itself, or with an exception none of its handlers caught. *)
Inductive http (A : Type) : Type :=
| Respond (body : A)
| HTTPException (status_code : Z) (detail : string)
| Uncaught (e : exn).
Arguments Respond {A} body.
Arguments HTTPException {A} status_code detail.
Arguments Uncaught {A} e.

(** [next((p for p in PERFUMES if p['id'] == perfume_id), None)] *)
Fixpoint first_with_id (PERFUMES : list perfume) (perfume_id : Z)
  : outcome (option perfume) :=
  match PERFUMES with
  | [] => Return None
  | p :: rest =>
      id <- subscript "id" (p_id p) ;;
      if Z.eqb id perfume_id then Return (Some p)
      else first_with_id rest perfume_id
  end.

(** [GET /perfumes/{perfume_id}] *)
Definition get_perfume (PERFUMES : list perfume) (perfume_id : Z) : http perfume :=
  match first_with_id PERFUMES perfume_id with
  | Raise e => Uncaught e
  | Return (Some p) =>
      if perfume_truthy p then Respond p
      else HTTPException 404 "Perfume not found"
  | Return None => HTTPException 404 "Perfume not found"
  end.

Record ChatRequest : Type := {
  cr_message : string;
  cr_user_id : option string
}.

Record ChatResponse : Type := {
  c_response : string;
  c_suggestions : list string;
  c_confidence : Q;
  c_timestamp : string
}.

(** [str(e)]: a [KeyError] prints its key between quotes, any other
    exception its message. *)
Definition str_exn (e : exn) : string :=
  match e with
  | KeyError key => "'" ++ key ++ "'"
  | AttributeError what | TypeError what | UnicodeDecodeError what
  | UnicodeEncodeError what | OSError what | RecursionError what => what
  end.

(** [POST /chat].  [ai] is built over [PERFUMES], so the suggestions read
    [perfumes ai]; [now] is [datetime.now().isoformat()]. *)
Definition chat (set_order : list string -> list string) (ai : PerfumeAI)
  (request : ChatRequest) (now : string) (g : rng)
  : http (ChatResponse * rng) :=
  match
    (ai_result <- generate_response ai (cr_message request) g ;;
     suggestions <- get_suggestions set_order (perfumes ai)
                      (r_type (fst ai_result)) (cr_message request) ;;
     Return ({| c_response := r_response (fst ai_result);
                c_suggestions := suggestions;
                c_confidence := r_confidence (fst ai_result);
                c_timestamp := now |}, snd ai_result))
  with
  | Return out => Respond out
  | Raise e => HTTPException 500 (str_exn e)
  end.

(** [GET /health]: the value under ["perfumes_loaded"]. *)
Definition perfumes_loaded (PERFUMES : list perfume) : bool :=
  Nat.ltb 0 (length PERFUMES).

(* ================================================================== *)
(** ** The helper of [trainer.py] *)
(* ================================================================== *)

Module Trainer.

(** [get_suggestions] of [trainer.py], over [trainer.perfumes]: the
    categories are read with [p['category']] and kept as stored. *)
Definition get_suggestions (set_order : list string -> list string)
  (trainer_perfumes : list perfume) (response_type message : string)
  : outcome (list string) :=
  let message_lower := lower message in
  if String.eqb response_type "perfume_info" then
    Return ["Similar perfumes"; "Price range"; "Show all"; "Recommendations"]
  else if String.eqb response_type "faq" then
    Return ["More FAQs"; "Perfume catalog"; "Contact support"; "Help"]
  else if any_in ["recommend"; "suggest"] message_lower then
    stored <- map_each (fun p => subscript "category" (p_category p))
                trainer_perfumes ;;
    let categories := list_of_set set_order stored in
    Return (firstn 3 categories ++ ["Show all"; "Prices"])%list
  else if any_in ["price"; "how much"; "cost"] message_lower then
    Return ["Floral Dream price"; "Woody Essence price"; "All prices";
            "Budget options"]
  else
    Return ["Recommend perfume"; "Show all"; "FAQs"; "Help"].

End Trainer.

(* ================================================================== *)
(** ** [load_training_data] on any file *)
(* ================================================================== *)

Module Json.

Inductive number : Type :=
| Int (z : Z)
| Float (printed : string).

(** A value as [json.load] builds it.  The members of an object are kept
    in the order of the dict, one entry for each key. *)
#[warnings="-register-all"]
Inductive value : Type :=
| JNull
| JBool (b : bool)
| JNumber (n : number)
| JString (s : string)
| JArray (items : list value)
| JObject (members : list (string * value)).

(** How [open] followed by [json.load] ends.  [Fails e] stands for every
    exception other than the two the loader has a handler for: a
    [PermissionError] of [open], the [UnicodeDecodeError] of a file that is
    not UTF-8, the [RecursionError] of a text nested too deep. *)
Inductive file : Type :=
| Missing
| NotJSON
| Fails (e : exn)
| Holds (data : value).

(** The three messages the loader prints. *)
Inductive notice : Type :=
| Loaded (perfumes faqs intents : nat)
| NotFound
| Invalid.

Definition lookup (key : string) (members : list (string * value)) : option value :=
  option_map snd (find (fun member => String.eqb (fst member) key) members).

(** [data.get(key, default)] *)
Definition dict_get (data : value) (key : string) (default : value)
  : outcome value :=
  match data with
  | JObject members => Return (get (lookup key members) default)
  | _ => Raise (AttributeError "get")
  end.

(** What [for ... in enumerate(perfumes)] goes through: the items of a
    list, the keys of a dict, the characters of a string. *)
Definition iterate (perfumes : value) : outcome (list value) :=
  match perfumes with
  | JArray items => Return items
  | JObject members => Return (map (fun member => JString (fst member)) members)
  | JString s =>
      Return (map (fun c => JString (String c "")) (list_ascii_of_string s))
  | _ => Raise (TypeError "object is not iterable")
  end.

(** ['id' in perfume]: a key of a dict, an item of a list, a substring of
    a string. *)
Definition has_id (perfume : value) : outcome bool :=
  match perfume with
  | JObject members =>
      Return (existsb (fun member => String.eqb (fst member) "id") members)
  | JArray items =>
      Return (existsb (fun item => match item with
                                   | JString s => String.eqb s "id"
                                   | _ => false
                                   end) items)
  | JString s => Return (contains "id" s)
  | _ => Raise (TypeError "argument is not iterable")
  end.

(** [perfume['id'] = n] when ['id'] is not in [perfume]. *)
Definition set_id (perfume : value) (n : Z) : outcome value :=
  match perfume with
  | JObject members => Return (JObject (members ++ [("id", JNumber (Int n))]))
  | JArray _ => Raise (TypeError "list indices must be integers or slices, not str")
  | _ => Raise (TypeError "object does not support item assignment")
  end.

(** The loop over [enumerate(perfumes)], [i] being the index of the head. *)
Fixpoint add_ids (i : Z) (items : list value) : outcome (list value) :=
  match items with
  | [] => Return []
  | perfume :: rest =>
      present <- has_id perfume ;;
      perfume' <- (if present then Return perfume else set_id perfume (i + 1)) ;;
      rest' <- add_ids (i + 1) rest ;;
      Return (perfume' :: rest')
  end.

(** [len(x)] *)
Definition len (x : value) : outcome nat :=
  match x with
  | JArray items => Return (length items)
  | JObject members => Return (length members)
  | JString s => Return (String.length s)
  | _ => Raise (TypeError "object has no len()")
  end.

Definition default_perfumes : value :=
  JArray
    [ JObject [("id", JNumber (Int 1)); ("name", JString "Floral Dream");
               ("price", JNumber (Float "45.99")); ("category", JString "floral")];
      JObject [("id", JNumber (Int 2)); ("name", JString "Woody Essence");
               ("price", JNumber (Float "59.99")); ("category", JString "woody")];
      JObject [("id", JNumber (Int 3)); ("name", JString "Citrus Splash");
               ("price", JNumber (Float "39.99")); ("category", JString "citrus")] ].

(** [console] is what [print] does with each message: it returns, or
    raises (a [UnicodeEncodeError] where the output cannot encode the
    message, for one). *)
Definition load_training_data (console : notice -> outcome unit) (f : file)
  : outcome (value * value * value) :=
  match f with
  | Holds data =>
      perfumes <- dict_get data "perfumes" (JArray []) ;;
      faqs <- dict_get data "faqs" (JArray []) ;;
      intents <- dict_get data "intents" (JArray []) ;;
      items <- iterate perfumes ;;
      numbered <- add_ids 0 items ;;
      let perfumes :=
        match perfumes with
        | JArray _ => JArray numbered
        | _ => perfumes
        end in
      n_perfumes <- len perfumes ;;
      n_faqs <- len faqs ;;
      n_intents <- len intents ;;
      _ <- console (Loaded n_perfumes n_faqs n_intents) ;;
      Return (perfumes, faqs, intents)
  | Fails e => Raise e
  | Missing =>
      _ <- console NotFound ;;
      Return (default_perfumes, JArray [], JArray [])
  | NotJSON =>
      _ <- console Invalid ;;
      Return (JArray [], JArray [], JArray [])
  end.

(** A console on which every message can be printed. *)
Definition prints (_ : notice) : outcome unit := Return tt.



(** *** The documents of the typed loader, as values *)

Definition member {A : Type} (key : string) (encode : A -> value)
  (field : option A) : list (string * value) :=
  match field with
  | Some a => [(key, encode a)]
  | None => []
  end.

Definition strings (l : list string) : value := JArray (map JString l).

Definition encode_perfume (p : perfume) : value :=
  JObject (member "name" JString (p_name p)
           ++ member "price" (fun s => JNumber (Float s)) (p_price p)
           ++ member "category" JString (p_category p)
           ++ member "notes" strings (p_notes p)
           ++ member "description" JString (p_description p)
           ++ member "id" (fun z => JNumber (Int z)) (p_id p))%list.

Definition encode_faq (f : faq) : value :=
  JObject (member "question" JString (f_question f)
           ++ member "answer" JString (f_answer f))%list.

Definition encode_intent (i : intent) : value :=
  JObject (member "name" JString (i_name i)
           ++ member "patterns" strings (i_patterns i)
           ++ member "responses" strings (i_responses i))%list.

Definition encode_data (data : training_data) : value :=
  JObject (member "perfumes" (fun l => JArray (map encode_perfume l))
                  (td_perfumes data)
           ++ member "faqs" (fun l => JArray (map encode_faq l)) (td_faqs data)
           ++ member "intents" (fun l => JArray (map encode_intent l))
                     (td_intents data))%list.

Definition encode_catalog (c : catalog) : value * value * value :=
  let '(ps, fs, ins) := c in
  (JArray (map encode_perfume ps), JArray (map encode_faq fs),
   JArray (map encode_intent ins)).

End Json.

(* ================================================================== *)
(** * Properties *)
(* ================================================================== *)

(** From here on [++] is list concatenation. *)
Open Scope list_scope.

(** ** First match of a scan *)

Section FirstMatch.
Context {A : Type} (f : A -> bool).

Lemma find_first (before after : list A) (x : A) :
  f x = true ->
  (forall y, In y before -> f y = false) ->
  find f (before ++ x :: after) = Some x.
Proof.
  intros Hx. induction before as [|b before IH]; intros Hbefore; simpl.
  - now rewrite Hx.
  - rewrite (Hbefore b (or_introl eq_refl)).
    apply IH. intros y Hy. apply Hbefore. now right.
Qed.

Lemma find_none_all (l : list A) :
  (forall y, In y l -> f y = false) -> find f l = None.
Proof.
  induction l as [|a l IH]; intros Hall; simpl; [reflexivity|].
  rewrite (Hall a (or_introl eq_refl)).
  apply IH. intros y Hy. apply Hall. now right.
Qed.

End FirstMatch.

(** ** Loops that cannot raise on a well-formed catalog *)

Lemma for_each_returns {A Acc : Type} (body : Acc -> A -> outcome Acc) (l : list A) :
  (forall acc x, In x l -> exists acc', body acc x = Return acc') ->
  forall acc, exists out, for_each body acc l = Return out.
Proof.
  induction l as [|x l IH]; intros Hbody acc; simpl.
  - now exists acc.
  - destruct (Hbody acc x (or_introl eq_refl)) as [acc' ->]. simpl.
    apply IH. intros a y Hy. apply Hbody. now right.
Qed.

Lemma subscript_present {A : Type} (key : string) (field : option A) :
  field <> None -> exists v, field = Some v /\ subscript key field = Return v.
Proof. destruct field as [v|]; [now exists v | congruence]. Qed.

Ltac name_and_price H :=
  let n := fresh "name" in
  let pr := fresh "price" in
  let Hn := fresh "Hname" in
  let Hp := fresh "Hprice" in
  destruct H as [Hn Hp];
  destruct (subscript_present "name" _ Hn) as (n & Hn' & ->);
  destruct (subscript_present "price" _ Hp) as (pr & Hp' & ->);
  simpl.

Lemma recommendation_line_returns (text : string) (p : perfume) :
  has_name_and_price p -> exists out, recommendation_line text p = Return out.
Proof. intros H. unfold recommendation_line. name_and_price H. eauto. Qed.

Lemma price_line_returns (text : string) (p : perfume) :
  has_name_and_price p -> exists out, price_line text p = Return out.
Proof. intros H. unfold price_line. name_and_price H. eauto. Qed.

Lemma category_line_returns (text : string) (p : perfume) :
  has_name_and_price p -> exists out, category_line text p = Return out.
Proof. intros H. unfold category_line. name_and_price H. eauto. Qed.

Lemma perfume_card_returns (p : perfume) :
  has_name_and_price p -> exists out, perfume_card p = Return out.
Proof. intros H. unfold perfume_card. name_and_price H. eauto. Qed.

Lemma named_is_truthy (p : perfume) : p_name p <> None -> perfume_truthy p = true.
Proof.
  unfold perfume_truthy. destruct (p_name p); [|congruence].
  now destruct (p_id p).
Qed.

(** ** What the random draws can pick *)

Lemma remove_at_incl {A : Type} (i : nat) (l : list A) (x : A) :
  In x (remove_at i l) -> In x l.
Proof.
  revert i. induction l as [|a l IH]; intros [|i] H; simpl in *; try tauto.
  destruct H as [-> | H]; eauto.
Qed.

Lemma sample_incl {A : Type} (k : nat) (population : list A) (g : rng) (x : A) :
  In x (fst (sample population k g)) -> In x population.
Proof.
  revert population g. induction k as [|k IH]; intros population g; simpl.
  - intros [].
  - destruct (randbelow (length population) g) as [i g1].
    destruct (nth_error population i) as [y|] eqn:Hy; simpl; [|intros []].
    specialize (IH (remove_at i population) g1).
    destruct (sample (remove_at i population) k g1) as [picked g2]. simpl in *.
    intros [<- | Hin].
    + eapply nth_error_In; eassumption.
    + eapply remove_at_incl. now apply IH.
Qed.

Lemma firstn_incl {A : Type} (n : nat) (l : list A) (x : A) :
  In x (firstn n l) -> In x l.
Proof.
  revert l. induction n as [|n IH]; intros [|a l] H; simpl in *; try tauto.
  destruct H as [-> | H]; eauto.
Qed.

Lemma find_perfume_In (self : PerfumeAI) (query : string) (p : perfume) :
  find_perfume self query = Some p -> In p (perfumes self).
Proof.
  unfold find_perfume.
  destruct (find (name_matches _) _) eqn:Hn.
  - intros [= <-]. now apply find_some in Hn.
  - destruct (find (category_matches _) _) eqn:Hc.
    + intros [= <-]. now apply find_some in Hc.
    + intros Hnote. now apply find_some in Hnote.
Qed.

(** ** The branches of [generate_response] *)

Lemma fallback_step_returns (g : rng) :
  exists r g', fallback_step g = Return (r, g') /\
    r_type r = "fallback" /\ r_confidence r = 0.3%Q /\
    r_perfume r = None /\ r_perfumes r = None.
Proof.
  unfold fallback_step. destruct (choice "" fallback_responses g) as [text g'].
  eexists _, _. repeat split.
Qed.

Ltac use_fallback g :=
  let r := fresh "r" in
  let g' := fresh "g'" in
  let Ht := fresh "Htype" in
  let Hc := fresh "Hconf" in
  destruct (fallback_step_returns g) as (r & g' & -> & Ht & Hc & _ & _);
  exists r, g'; split; [reflexivity|].

Ltac other_branch :=
  solve [ exfalso; congruence
        | exfalso; match goal with H : _ <> _ |- _ => apply H; congruence end
        | exfalso; match goal with
                   | H : ?x = _ , H' : ?x = _ |- _ => rewrite H in H'; discriminate
                   end ].

Lemma intent_step_branches (self : PerfumeAI) (message : string) (g : rng) :
  Forall has_name_and_price (perfumes self) ->
  exists r g', intent_step self message g = Return (r, g') /\
    (find_intent self message = "greeting" ->
       r_type r = "greeting" /\ r_confidence r = 0.9%Q) /\
    (find_intent self message = "recommendation" -> perfumes self <> [] ->
       r_type r = "recommendation" /\ r_confidence r = 0.8%Q) /\
    (find_intent self message = "price_inquiry" -> perfumes self <> [] ->
       r_type r = "price_info" /\ r_confidence r = 0.7%Q) /\
    (find_intent self message = "category_query" ->
       forall cat,
         find (fun c => contains c (lower message)) categories = Some cat ->
         filter (in_category cat) (perfumes self) <> [] ->
         r_type r = "category_info" /\ r_confidence r = 0.8%Q) /\
    (find_intent self message <> "greeting" ->
     (find_intent self message = "recommendation" -> perfumes self = []) ->
     (find_intent self message = "price_inquiry" -> perfumes self = []) ->
     (find_intent self message = "category_query" ->
        forall cat,
          find (fun c => contains c (lower message)) categories = Some cat ->
          filter (in_category cat) (perfumes self) = []) ->
     r_type r = "fallback" /\ r_confidence r = 0.3%Q).
Proof.
  intros Hwf. rewrite Forall_forall in Hwf. unfold intent_step.
  destruct (String.eqb (find_intent self message) "greeting") eqn:Egreet.
  { apply String.eqb_eq in Egreet.
    destruct (choice "" greeting_responses g) as [text g'].
    eexists _, _. split; [reflexivity|]. simpl.
    repeat split; intros; first [reflexivity | other_branch]. }
  apply String.eqb_neq in Egreet.
  destruct (String.eqb (find_intent self message) "recommendation") eqn:Erec.
  { apply String.eqb_eq in Erec.
    destruct (perfumes self) as [|p0 rest] eqn:Hps.
    - use_fallback g. repeat split; intros; first [assumption | other_branch].
    - rewrite <- Hps in *.
      destruct (sample (perfumes self) (Nat.min 3 (length (perfumes self))) g)
        as [recommended g'] eqn:Hsample.
      destruct (for_each_returns recommendation_line recommended) with
        (acc := ("✨ **Top Recommendations:**" ++ nl ++ nl)%string) as [text ->].
      { intros acc x Hx. apply recommendation_line_returns, Hwf.
        apply (sample_incl (Nat.min 3 (length (perfumes self))) _ g).
        now rewrite Hsample. }
      eexists _, _. split; [reflexivity|]. simpl.
      repeat split; intros; try first [reflexivity | other_branch];
        exfalso; match goal with H : _ -> perfumes self = [] |- _ =>
          rewrite H in Hps by assumption; discriminate end. }
  apply String.eqb_neq in Erec.
  destruct (String.eqb (find_intent self message) "price_inquiry") eqn:Eprice.
  { apply String.eqb_eq in Eprice.
    destruct (perfumes self) as [|p0 rest] eqn:Hps.
    - use_fallback g. repeat split; intros; first [assumption | other_branch].
    - rewrite <- Hps in *.
      destruct (for_each_returns price_line (firstn 5 (perfumes self))) with
        (acc := ("💰 **Our Perfume Prices:**" ++ nl ++ nl)%string) as [text ->].
      { intros acc x Hx. apply price_line_returns, Hwf.
        eapply firstn_incl; eassumption. }
      eexists _, _. split; [reflexivity|]. simpl.
      repeat split; intros; try first [reflexivity | other_branch];
        exfalso; match goal with H : _ -> perfumes self = [] |- _ =>
          rewrite H in Hps by assumption; discriminate end. }
  apply String.eqb_neq in Eprice.
  destruct (String.eqb (find_intent self message) "category_query") eqn:Ecat.
  { apply String.eqb_eq in Ecat.
    destruct (find (fun cat => contains cat (lower message)) categories)
      as [mentioned|] eqn:Hmention.
    - destruct (filter (in_category mentioned) (perfumes self))
        as [|p0 rest] eqn:Hfilter.
      + use_fallback g.
        repeat split; intros; try first [assumption | other_branch];
          match goal with H : Some _ = Some _ |- _ => injection H as <- end;
          congruence.
      + rewrite <- Hfilter in *.
        destruct (for_each_returns category_line
                    (filter (in_category mentioned) (perfumes self))) with
          (acc := ("🌸 **" ++ title mentioned ++ " Perfumes:**" ++ nl ++ nl)%string)
          as [text ->].
        { intros acc x Hx. apply category_line_returns, Hwf.
          now apply filter_In in Hx. }
        eexists _, _. split; [reflexivity|]. simpl.
        repeat split; intros; try first [reflexivity | other_branch];
          exfalso;
          match goal with
            H : _ -> forall cat, _ -> filter (in_category cat) _ = [] |- _ =>
              rewrite (H Ecat mentioned eq_refl) in Hfilter; discriminate
          end.
    - use_fallback g.
      repeat split; intros; try first [assumption | other_branch]; discriminate. }
  apply String.eqb_neq in Ecat.
  use_fallback g. repeat split; intros; first [assumption | other_branch].
Qed.

(** ** C2: [find_intent] *)

Lemma intent_matches_true (m : string) (i : intent) :
  intent_matches m i = true <->
  exists pattern,
    In pattern (get (i_patterns i) []) /\ contains (lower pattern) m = true.
Proof. unfold intent_matches. apply existsb_exists. Qed.

Lemma intent_matches_false (m : string) (i : intent) :
  intent_matches m i = false <->
  forall pattern,
    In pattern (get (i_patterns i) []) -> contains (lower pattern) m = false.
Proof.
  split.
  - intros Hno pattern Hin.
    destruct (contains (lower pattern) m) eqn:Hc; [|reflexivity].
    rewrite <- Hno. symmetry. apply intent_matches_true. eauto.
  - intros Hall. destruct (intent_matches m i) eqn:Hm; [|reflexivity].
    apply intent_matches_true in Hm. destruct Hm as (pattern & Hin & Hc).
    now rewrite (Hall pattern Hin) in Hc.
Qed.

(** Membership in a literal list, by cases. *)
Ltac each_member H :=
  simpl in H;
  repeat match type of H with
         | _ \/ _ => destruct H as [<- | H]
         end;
  try contradiction.

(** The pattern "what should I buy" of the sample data has a capital
    letter, so it is not a substring of any lower-cased input; no stored
    pattern is a substring of this lower-cased message and the keyword
    ladder answers [unknown], yet the message is classified by the stored
    intent. *)
Lemma find_intent_capital_pattern_counterexample :
  let self := init ([], [], sample_intents) in
  let message := "what should I buy" in
  (forall i pattern,
      In i (intents self) -> In pattern (get (i_patterns i) []) ->
      contains pattern (lower message) = false) /\
  fallback_intent (lower message) = "unknown" /\
  find_intent self message = "recommendation".
Proof.
  cbv zeta. split; [|split; reflexivity].
  intros i pattern Hi Hp.
  each_member Hi; each_member Hp; reflexivity.
Qed.

(** C2, amended.  Patterns are lower-cased before they are looked for in
    the lower-cased message.  The first stored intent, in catalog order,
    one of whose lower-cased patterns occurs in it gives the answer (its
    name, or [unknown] when it has none), whatever keywords the message
    contains; when no stored pattern occurs, the answer is that of the
    keyword groups, tried in the order greeting, recommendation, price,
    category, and [unknown] when none applies. *)
Theorem find_intent_first_match :
  forall (self : PerfumeAI) (message : string),
    (forall before i after pattern,
        intents self = before ++ i :: after ->
        In pattern (get (i_patterns i) []) ->
        contains (lower pattern) (lower message) = true ->
        (forall j p, In j before -> In p (get (i_patterns j) []) ->
                     contains (lower p) (lower message) = false) ->
        find_intent self message = get (i_name i) "unknown") /\
    ((forall j p, In j (intents self) -> In p (get (i_patterns j) []) ->
                  contains (lower p) (lower message) = false) ->
     let m := lower message in
     (any_in ["hi"; "hello"; "hey"] m = true ->
        find_intent self message = "greeting") /\
     (any_in ["hi"; "hello"; "hey"] m = false ->
      any_in ["recommend"; "suggest"] m = true ->
        find_intent self message = "recommendation") /\
     (any_in ["hi"; "hello"; "hey"] m = false ->
      any_in ["recommend"; "suggest"] m = false ->
      any_in ["price"; "how much"; "cost"] m = true ->
        find_intent self message = "price_inquiry") /\
     (any_in ["hi"; "hello"; "hey"] m = false ->
      any_in ["recommend"; "suggest"] m = false ->
      any_in ["price"; "how much"; "cost"] m = false ->
      any_in ["floral"; "woody"; "citrus"; "fresh"; "oriental"] m = true ->
        find_intent self message = "category_query") /\
     (any_in ["hi"; "hello"; "hey"] m = false ->
      any_in ["recommend"; "suggest"] m = false ->
      any_in ["price"; "how much"; "cost"] m = false ->
      any_in ["floral"; "woody"; "citrus"; "fresh"; "oriental"] m = false ->
        find_intent self message = "unknown")).
Proof.
  intros self message. split.
  - intros before i after pattern Hsplit Hin Hc Hbefore.
    unfold find_intent. rewrite Hsplit.
    rewrite (find_first (intent_matches (lower message)) before after i).
    + reflexivity.
    + apply intent_matches_true. eauto.
    + intros j Hj. apply intent_matches_false. intros p Hp. eapply Hbefore; eauto.
  - intros Hnone m.
    assert (Hfall : find_intent self message = fallback_intent m).
    { unfold find_intent. fold m.
      rewrite (find_none_all (intent_matches m)); [reflexivity|].
      intros j Hj. apply intent_matches_false. intros p Hp. eapply Hnone; eauto. }
    rewrite Hfall. unfold fallback_intent.
    repeat split; intros;
      repeat match goal with H : any_in _ m = _ |- _ => rewrite H; clear H end;
      reflexivity.
Qed.

(** The stored intent wins on the message of the counterexample. *)
Lemma find_intent_first_match_witness :
  find_intent (init ([], [], sample_intents)) "what should I buy"
  = "recommendation".
Proof.
  apply (proj1 (find_intent_first_match
                  (init ([], [], sample_intents)) "what should I buy")
           [nth 0 sample_intents (Build_intent None None None)]
           (nth 1 sample_intents (Build_intent None None None))
           (skipn 2 sample_intents)
           "what should I buy").
  - reflexivity.
  - simpl. tauto.
  - reflexivity.
  - intros j p Hj Hp. each_member Hj; each_member Hp; reflexivity.
Defined.

(** ** C3: [find_perfume] *)

Lemma note_matches_true (q : string) (p : perfume) :
  note_matches q p = true <->
  exists note, In note (get (p_notes p) []) /\ contains (lower note) q = true.
Proof. unfold note_matches. apply existsb_exists. Qed.

Lemma note_matches_false (q : string) (p : perfume) :
  note_matches q p = false <->
  forall note, In note (get (p_notes p) []) -> contains (lower note) q = false.
Proof.
  split.
  - intros Hno note Hin.
    destruct (contains (lower note) q) eqn:Hc; [|reflexivity].
    rewrite <- Hno. symmetry. apply note_matches_true. eauto.
  - intros Hall. destruct (note_matches q p) eqn:Hm; [|reflexivity].
    apply note_matches_true in Hm. destruct Hm as (note & Hin & Hc).
    now rewrite (Hall note Hin) in Hc.
Qed.

(** On the built-in catalog no product name, as stored, is a substring of
    the lower-cased query below, while the category of Woody Essence is;
    the matcher nevertheless answers Citrus Splash, found by its
    lower-cased name. *)
Lemma find_perfume_capital_name_counterexample :
  let self := init (default_perfumes, [], []) in
  let query := "citrus splash or woody" in
  (forall p, In p (perfumes self) ->
             contains (get (p_name p) "") (lower query) = false) /\
  (exists woody,
      nth_error (perfumes self) 1 = Some woody /\
      contains (get (p_category woody) "") (lower query) = true /\
      find_perfume self query <> Some woody) /\
  find_perfume self query = nth_error (perfumes self) 2.
Proof.
  cbv zeta. split; [|split].
  - intros p Hp. each_member Hp; reflexivity.
  - eexists. split; [reflexivity|]. split; [reflexivity|]. discriminate.
  - reflexivity.
Qed.

(** C3, amended.  Every stored field is lower-cased before it is looked
    for in the lower-cased query.  The matcher answers the first product,
    in catalog order, whose lower-cased name occurs in the query; when no
    name occurs, the first product whose lower-cased category occurs; when
    no category occurs either, the first product one of whose lower-cased
    notes occurs; and nothing when no phase matches.  An absent name or
    category counts as the empty string, an absent note list as empty. *)
Theorem find_perfume_three_phases :
  forall (self : PerfumeAI) (query : string),
    let q := lower query in
    let no_name := forall x, In x (perfumes self) ->
                     contains (lower (get (p_name x) "")) q = false in
    let no_category := forall x, In x (perfumes self) ->
                         contains (lower (get (p_category x) "")) q = false in
    let no_note := forall x note, In x (perfumes self) ->
                     In note (get (p_notes x) []) ->
                     contains (lower note) q = false in
    (forall before p after,
        perfumes self = before ++ p :: after ->
        contains (lower (get (p_name p) "")) q = true ->
        (forall x, In x before ->
                   contains (lower (get (p_name x) "")) q = false) ->
        find_perfume self query = Some p) /\
    (no_name ->
     forall before p after,
        perfumes self = before ++ p :: after ->
        contains (lower (get (p_category p) "")) q = true ->
        (forall x, In x before ->
                   contains (lower (get (p_category x) "")) q = false) ->
        find_perfume self query = Some p) /\
    (no_name -> no_category ->
     forall before p after note,
        perfumes self = before ++ p :: after ->
        In note (get (p_notes p) []) ->
        contains (lower note) q = true ->
        (forall x n, In x before -> In n (get (p_notes x) []) ->
                     contains (lower n) q = false) ->
        find_perfume self query = Some p) /\
    (no_name -> no_category -> no_note -> find_perfume self query = None).
Proof.
  intros self query q no_name no_category no_note.
  unfold find_perfume. fold q. repeat split.
  - intros before p after Hsplit Hp Hbefore. rewrite Hsplit.
    now rewrite (find_first (name_matches q) before after p).
  - intros Hname before p after Hsplit Hp Hbefore.
    rewrite (find_none_all (name_matches q)) by exact Hname.
    rewrite Hsplit.
    now rewrite (find_first (category_matches q) before after p).
  - intros Hname Hcat before p after note Hsplit Hin Hc Hbefore.
    rewrite (find_none_all (name_matches q)) by exact Hname.
    rewrite (find_none_all (category_matches q)) by exact Hcat.
    rewrite Hsplit. apply find_first.
    + apply note_matches_true. eauto.
    + intros x Hx. apply note_matches_false. intros n Hn. eapply Hbefore; eauto.
  - intros Hname Hcat Hnote.
    rewrite (find_none_all (name_matches q)) by exact Hname.
    rewrite (find_none_all (category_matches q)) by exact Hcat.
    apply find_none_all. intros x Hx. apply note_matches_false.
    intros n Hn. eapply Hnote; eauto.
Qed.

(** A note of the first sample perfume, met in the third phase. *)
Lemma find_perfume_three_phases_witness :
  find_perfume (init (sample_perfumes, [], [])) "something with JASMINE"
  = nth_error sample_perfumes 0.
Proof.
  refine (proj1 (proj2 (proj2 (find_perfume_three_phases
                  (init (sample_perfumes, [], [])) "something with JASMINE")))
            _ _ [] (nth 0 sample_perfumes (named "")) (skipn 1 sample_perfumes)
            "Jasmine" _ _ _ _).
  - intros x Hx. each_member Hx; reflexivity.
  - intros x Hx. each_member Hx; reflexivity.
  - reflexivity.
  - simpl. tauto.
  - reflexivity.
  - intros x n [].
Defined.

(** ** C4: [answer_faq] *)

Lemma faq_matches_true (q : string) (f : faq) :
  faq_matches q f = true <->
  exists w, In w (firstn 3 (split (lower (get (f_question f) "")))) /\
            contains w q = true.
Proof. unfold faq_matches, any_in, faq_keywords. apply existsb_exists. Qed.

Lemma faq_matches_false (q : string) (f : faq) :
  faq_matches q f = false <->
  forall w, In w (firstn 3 (split (lower (get (f_question f) "")))) ->
            contains w q = false.
Proof.
  split.
  - intros Hno w Hin.
    destruct (contains w q) eqn:Hc; [|reflexivity].
    rewrite <- Hno. symmetry. apply faq_matches_true. eauto.
  - intros Hall. destruct (faq_matches q f) eqn:Hm; [|reflexivity].
    apply faq_matches_true in Hm. destruct Hm as (w & Hin & Hc).
    now rewrite (Hall w Hin) in Hc.
Qed.

(** None of the lower-cased leading words of the sample questions occurs
    in the upper-case input below, and still the first FAQ answers it:
    the input is lower-cased too before the words are looked for. *)
Lemma answer_faq_upper_case_input_counterexample :
  let self := init ([], sample_faqs, []) in
  let question := "HOW LONG?" in
  (forall f w,
      In f (faqs self) ->
      In w (firstn 3 (split (lower (get (f_question f) "")))) ->
      contains w question = false) /\
  answer_faq self question = f_answer (nth 0 sample_faqs (Build_faq None None)) /\
  answer_faq self question <> None.
Proof.
  cbv zeta. split; [|split; [reflexivity | discriminate]].
  intros f w Hf Hw. each_member Hf; each_member Hw; reflexivity.
Qed.

(** C4, amended.  The words compared are the first three
    white-space-separated words of the lower-cased stored question, and
    they are looked for in the lower-cased input.  When none of them occurs
    there for any FAQ the matcher answers nothing; otherwise it gives the
    answer field of the first FAQ, in catalog order, one of whose words
    occurs. *)
Theorem answer_faq_first_match :
  forall (self : PerfumeAI) (question : string),
    ((forall f w,
         In f (faqs self) ->
         In w (firstn 3 (split (lower (get (f_question f) "")))) ->
         contains w (lower question) = false) ->
     answer_faq self question = None) /\
    (forall before f after w,
        faqs self = before ++ f :: after ->
        In w (firstn 3 (split (lower (get (f_question f) "")))) ->
        contains w (lower question) = true ->
        (forall f' w',
            In f' before ->
            In w' (firstn 3 (split (lower (get (f_question f') "")))) ->
            contains w' (lower question) = false) ->
        answer_faq self question = f_answer f).
Proof.
  intros self question. unfold answer_faq. split.
  - intros Hnone.
    rewrite (find_none_all (faq_matches (lower question))); [reflexivity|].
    intros f Hf. apply faq_matches_false. intros w Hw. eapply Hnone; eauto.
  - intros before f after w Hsplit Hw Hc Hbefore. rewrite Hsplit.
    rewrite (find_first (faq_matches (lower question)) before after f).
    + reflexivity.
    + apply faq_matches_true. eauto.
    + intros f' Hf'. apply faq_matches_false. intros w' Hw'.
      eapply Hbefore; eauto.
Qed.

(** Two sample questions start with "how"; the first one answers. *)
Lemma answer_faq_first_match_witness :
  answer_faq (init ([], sample_faqs, [])) "How do I keep it?"
  = f_answer (nth 0 sample_faqs (Build_faq None None)).
Proof.
  apply (proj2 (answer_faq_first_match
                  (init ([], sample_faqs, [])) "How do I keep it?")
           [] (nth 0 sample_faqs (Build_faq None None)) (skipn 1 sample_faqs)
           "how").
  - reflexivity.
  - simpl. tauto.
  - reflexivity.
  - intros f' w' [].
Defined.

(** ** C5: [get_categories] *)

Lemma Permutation_filter {A : Type} (f : A -> bool) (l l' : list A) :
  Permutation l l' -> Permutation (filter f l) (filter f l').
Proof.
  induction 1 as [| x l l' _ IH | x y l | l l' l'' _ IH1 _ IH2]; simpl.
  - constructor.
  - destruct (f x); [now constructor | assumption].
  - destruct (f x), (f y); try reflexivity. apply perm_swap.
  - now transitivity (filter f l').
Qed.

(** C5.  On a catalog with the categories "floral" and "Floral" the
    endpoint lists "Floral" twice, in whatever order the set is iterated:
    duplicates are removed before the title-casing, not after. *)
Theorem get_categories_repeats_mixed_case :
  forall set_order : list string -> list string,
    rearranges set_order ->
    count_occ string_dec (get_categories set_order mixed_case_catalog) "Floral"
    = 2%nat /\
    ~ NoDup (get_categories set_order mixed_case_catalog).
Proof.
  intros set_order Hperm. unfold get_categories, list_of_set.
  match goal with |- context [set_order ?items] => set (raw := items) end.
  assert (Hraw : raw = ["floral"; "Floral"]) by reflexivity.
  assert (Hcount :
    count_occ string_dec
      (map title (filter (fun c => negb (String.eqb c "")) (set_order raw)))
      "Floral" = 2%nat).
  { rewrite <- (proj1 (Permutation_count_occ string_dec _ _)
                  (Permutation_map title
                     (Permutation_filter (fun c => negb (String.eqb c "")) _ _
                        (Hperm raw)))).
    rewrite Hraw. reflexivity. }
  split; [exact Hcount|].
  intros Hnodup.
  pose proof (proj1 (NoDup_count_occ string_dec _) Hnodup "Floral") as Hle.
  rewrite Hcount in Hle. lia.
Qed.

(** With the iteration order that keeps the list as it is. *)
Lemma get_categories_repeats_mixed_case_witness :
  rearranges (fun l => l) /\
  count_occ string_dec (get_categories (fun l => l) mixed_case_catalog) "Floral"
  = 2%nat.
Proof.
  assert (Hid : rearranges (fun l => l)) by (intros l; apply Permutation_refl).
  split; [exact Hid|].
  exact (proj1 (get_categories_repeats_mixed_case (fun l => l) Hid)).
Defined.

(** The sibling in [get_suggestions] title-cases first and removes
    duplicates afterwards: there the category comes once. *)
Lemma get_suggestions_categories_once (set_order : list string -> list string) :
  rearranges set_order ->
  get_suggestions set_order mixed_case_catalog "fallback" "recommend"
  = Return ["Floral"; "Show all"; "Prices"].
Proof.
  intros Hperm. unfold get_suggestions, list_of_set. simpl.
  match goal with |- context [set_order ?items] => set (once := items) end.
  assert (Honce : once = ["Floral"]) by reflexivity.
  pose proof (Hperm once) as Hp. rewrite Honce in Hp |- *.
  apply Permutation_length_1_inv in Hp. now rewrite Hp.
Qed.

(** ** C6: identifiers after loading *)

Lemma add_ids_length (i : Z) (raw : list perfume) :
  length (add_ids i raw) = length raw.
Proof.
  revert i. induction raw as [|p raw IH]; intros i; simpl; [reflexivity|].
  now rewrite IH.
Qed.

Lemma add_ids_nth (raw : list perfume) :
  forall (i : Z) (j : nat) (p : perfume),
    nth_error raw j = Some p ->
    nth_error (add_ids i raw) j
    = Some (match p_id p with
            | Some _ => p
            | None => set_id p (i + Z.of_nat j + 1)
            end).
Proof.
  induction raw as [|a raw IH]; intros i [|j] p; simpl; try discriminate.
  - intros [= ->]. now rewrite Z.add_0_r.
  - intros Hj. rewrite (IH (i + 1)%Z j p Hj).
    replace (i + 1 + Z.of_nat j + 1)%Z with (i + Z.pos (Pos.of_succ_nat j) + 1)%Z
      by lia.
    reflexivity.
Qed.

Lemma add_ids_all_identified (i : Z) (raw : list perfume) :
  Forall (fun p => p_id p <> None) (add_ids i raw).
Proof.
  revert i. induction raw as [|p raw IH]; intros i; simpl; constructor.
  - destruct (p_id p) eqn:Hp; simpl; congruence.
  - apply IH.
Qed.

Lemma with_position_id (j : nat) (p : perfume) :
  p_id (with_position j p)
  = Some (match p_id p with Some k => k | None => (Z.of_nat j + 1)%Z end).
Proof. unfold with_position. now destruct (p_id p) eqn:Hp. Qed.

(** The source [colliding_data] loads into two products that both have
    the identifier 2: the one the first product came with, and the
    position of the second. *)
Lemma load_duplicate_identifier_counterexample :
  exists ps fs ins,
    load_training_data (Parsed (DocObject colliding_data)) = Return (ps, fs, ins) /\
    map p_id ps = [Some 2%Z; Some 2%Z] /\
    ~ NoDup (map p_id ps).
Proof.
  eexists _, _, _. split; [reflexivity|]. split; [reflexivity|].
  simpl. intros Hnodup. inversion Hnodup as [|x l Hnotin _]; subst.
  apply Hnotin. now left.
Qed.

(** C6, amended.  After loading, every product has an identifier.  A
    product that had none in the source gets its position in the source
    list, counted from 1 over all products; a product that had one keeps
    it.  The identifiers are pairwise different provided the identifiers
    present in the source are pairwise different and none of them equals
    the position of a product that has none.  The built-in products are
    numbered 1, 2, 3. *)
Theorem loaded_identifiers :
  forall (src : source) (ps : list perfume) (fs : list faq) (ins : list intent),
    load_training_data src = Return (ps, fs, ins) ->
    Forall (fun p => p_id p <> None) ps /\
    (forall data, src = Parsed (DocObject data) ->
       let raw := get (td_perfumes data) [] in
       length ps = length raw /\
       (forall i p, nth_error raw i = Some p ->
                    nth_error ps i = Some (with_position i p)) /\
       ((forall i j p q k,
            nth_error raw i = Some p -> nth_error raw j = Some q ->
            p_id p = Some k -> p_id q = Some k -> i = j) ->
        (forall i j p q,
            nth_error raw i = Some p -> nth_error raw j = Some q ->
            p_id q = None -> p_id p <> Some (Z.of_nat j + 1)%Z) ->
        NoDup (map p_id ps))) /\
    (src = FileNotFound -> map p_id ps = [Some 1%Z; Some 2%Z; Some 3%Z]).
Proof.
  intros src ps fs ins Hload. split; [|split].
  - destruct src as [| |[data| | | | |]]; simpl in Hload; try discriminate;
      injection Hload as <- <- <-.
    + repeat constructor; simpl; discriminate.
    + constructor.
    + apply add_ids_all_identified.
  - intros data ->. simpl in Hload. injection Hload as <- <- <-.
    set (raw := get (td_perfumes data) []).
    assert (Hnth : forall i p, nth_error raw i = Some p ->
                     nth_error (add_ids 0 raw) i = Some (with_position i p)).
    { intros i p Hi. now rewrite (add_ids_nth raw 0%Z i p Hi). }
    split; [apply add_ids_length|]. split; [exact Hnth|].
    intros Hdistinct Hapart.
    apply NoDup_nth_error. intros i j Hi Heq.
    rewrite length_map, add_ids_length in Hi.
    destruct (nth_error raw i) as [p|] eqn:Hp;
      [|apply nth_error_None in Hp; lia].
    rewrite !nth_error_map, (Hnth i p Hp) in Heq. simpl in Heq.
    destruct (nth_error raw j) as [q|] eqn:Hq.
    + rewrite (Hnth j q Hq) in Heq. simpl in Heq.
      rewrite !with_position_id in Heq. injection Heq as Heq.
      destruct (p_id p) as [k|] eqn:Hkp, (p_id q) as [k'|] eqn:Hkq.
      * subst k'. eapply Hdistinct; eauto.
      * exfalso. apply (Hapart i j p q Hp Hq Hkq). now rewrite Hkp, Heq.
      * exfalso. apply (Hapart j i q p Hq Hp Hkp). now rewrite Hkq, Heq.
      * lia.
    + apply nth_error_None in Hq. rewrite <- (add_ids_length 0 raw) in Hq.
      apply nth_error_None in Hq. rewrite Hq in Heq. discriminate.
  - intros ->. simpl in Hload. now injection Hload as <- <- <-.
Qed.

(** The sample data has no identifier at all: its products are numbered
    by position. *)
Lemma loaded_identifiers_witness :
  NoDup (map p_id (add_ids 0 sample_perfumes)) /\
  nth_error (add_ids 0 sample_perfumes) 1
  = option_map (with_position 1) (nth_error sample_perfumes 1).
Proof.
  destruct (loaded_identifiers (Parsed (DocObject sample_data))
              (add_ids 0 sample_perfumes) sample_faqs sample_intents eq_refl)
    as (_ & Hparsed & _).
  destruct (Hparsed sample_data eq_refl) as (_ & Hnth & Hnodup).
  split.
  - apply Hnodup.
    + intros [|[|[|i]]] j p q k Hp; simpl in Hp; try discriminate;
        injection Hp as <-; intros _ Hk; discriminate.
    + intros [|[|[|i]]] j p q Hp; simpl in Hp; try discriminate;
        injection Hp as <-; intros _ _; discriminate.
  - apply (Hnth 1%nat). reflexivity.
Defined.

(** ** C7: an empty product list *)

(** With nothing loaded at all, "recommend something" is a greeting: the
    keyword "hi" occurs inside "something", and the greeting group is
    tried before the recommendation group. *)
Lemma recommend_something_counterexample :
  let self := init ([], [], []) in
  let message := "recommend something" in
  contains "hi" (lower message) = true /\
  find_intent self message = "greeting" /\
  exists r g',
    generate_response self message [] = Return (r, g') /\
    r_type r = "greeting" /\ r_confidence r = 0.9%Q /\ r_type r <> "fallback".
Proof.
  cbv zeta. split; [reflexivity|]. split; [reflexivity|].
  eexists _, _. split; [reflexivity|]. simpl.
  split; [reflexivity|]. split; [reflexivity | discriminate].
Qed.

(** C7, amended.  With an empty product list, every message that the FAQ
    step leaves unanswered and that is classified as [recommendation],
    [price_inquiry] or [category_query] gets the [fallback] reply with
    confidence 0.3, and no list of recommended products. *)
Theorem empty_product_list_falls_back :
  forall (fs : list faq) (ins : list intent) (message : string) (g : rng),
    let self := {| perfumes := []; faqs := fs; intents := ins |} in
    truthy (answer_faq self message) = false ->
    find_intent self message = "recommendation" \/
    find_intent self message = "price_inquiry" \/
    find_intent self message = "category_query" ->
    exists r g',
      generate_response self message g = Return (r, g') /\
      r_type r = "fallback" /\ r_confidence r = 0.3%Q /\ r_perfumes r = None.
Proof.
  intros fs ins message g self Hfaq Hintent.
  unfold generate_response. rewrite Hfaq.
  change (find_perfume self message) with (@None perfume).
  destruct (fallback_step_returns g) as (r & g' & Hfb & Htype & Hconf & _ & Hnone).
  exists r, g'. split; [|now repeat split].
  unfold intent_step.
  destruct Hintent as [-> | [-> | ->]]; simpl; try exact Hfb.
  repeat match goal with
         | |- context [if ?c then _ else _] => destruct c
         end; exact Hfb.
Qed.

(** "recommend a perfume" against nothing loaded. *)
Lemma empty_product_list_falls_back_witness :
  exists r g',
    generate_response (init ([], [], [])) "recommend a perfume" [] = Return (r, g') /\
    r_type r = "fallback" /\ r_confidence r = 0.3%Q /\ r_perfumes r = None.
Proof.
  apply (empty_product_list_falls_back [] [] "recommend a perfume" []).
  - reflexivity.
  - left. reflexivity.
Defined.

(** ** Replies that are not FAQ answers *)



(** ** C10: a product without a name *)

Lemma contains_empty (s : string) : contains "" s = true.
Proof. now destruct s. Qed.

Lemma find_no_later {A : Type} (f : A -> bool) (before after : list A) (p : A) :
  f p = true ->
  exists r, find f (before ++ p :: after) = Some r /\ f r = true /\
            (r = p \/ In r before).
Proof.
  intros Hp. induction before as [|b before IH]; simpl.
  - rewrite Hp. eauto.
  - destruct (f b) eqn:Hb.
    + exists b. auto.
    + destruct IH as (r & -> & Hr & [-> | Hin]); eauto 6.
Qed.

(** In [shadowed_catalog] the second product is the first one with an
    empty name, yet a query that mentions the first product by name gets
    the first product. *)
Lemma find_perfume_nameless_counterexample :
  let self := init (shadowed_catalog, [], []) in
  (exists nameless,
      nth_error (perfumes self) 1 = Some nameless /\
      p_name nameless = Some "" /\
      find_perfume self "a rose" <> Some nameless) /\
  (forall p, nth_error (perfumes self) 0 = Some p -> p_name p = Some "rose") /\
  find_perfume self "a rose" = nth_error (perfumes self) 0.
Proof.
  cbv zeta. split; [|split].
  - eexists. split; [reflexivity|]. split; [reflexivity | discriminate].
  - intros p [= <-]. reflexivity.
  - reflexivity.
Qed.

(** C10, amended.  If some product has a missing or empty name, every
    query is answered in the name phase, so category and note matching
    are never reached: the answer is a product whose lower-cased name
    occurs in the lower-cased query, and it is that product or one listed
    before it.  It is that product when no product before it has its
    lower-cased name in the query. *)
Theorem find_perfume_nameless_shadows :
  forall (self : PerfumeAI) (before after : list perfume) (p : perfume),
    perfumes self = before ++ p :: after ->
    get (p_name p) "" = "" ->
    forall query : string,
      (exists r,
          find_perfume self query = Some r /\
          find (name_matches (lower query)) (perfumes self) = Some r /\
          contains (lower (get (p_name r) "")) (lower query) = true /\
          (r = p \/ In r before)) /\
      ((forall x, In x before ->
                  contains (lower (get (p_name x) "")) (lower query) = false) ->
       find_perfume self query = Some p).
Proof.
  intros self before after p Hsplit Hname query.
  assert (Hp : name_matches (lower query) p = true).
  { unfold name_matches. rewrite Hname. apply contains_empty. }
  split.
  - destruct (find_no_later (name_matches (lower query)) before after p Hp)
      as (r & Hfind & Hr & Hwhere).
    exists r. unfold find_perfume. rewrite Hsplit, Hfind. auto.
  - intros Hbefore. unfold find_perfume.
    now rewrite Hsplit, (find_first (name_matches (lower query)) before after p).
Qed.

(** On [shadowed_catalog], a query that names nothing. *)
Lemma find_perfume_nameless_shadows_witness :
  find_perfume (init (shadowed_catalog, [], [])) "something woody"
  = nth_error shadowed_catalog 1.
Proof.
  apply (proj2 (find_perfume_nameless_shadows
                  (init (shadowed_catalog, [], []))
                  [named "rose"] [] (named "") eq_refl eq_refl "something woody")).
  intros x Hx. each_member Hx. reflexivity.
Defined.

(* ================================================================== *)
(** * Further properties of the program *)
(* ================================================================== *)

(** ** Facts about the string operations *)

Lemma to_lower_idempotent (c : ascii) : to_lower (to_lower c) = to_lower c.
Proof. destruct c as [[] [] [] [] [] [] [] []]; reflexivity. Qed.

Lemma lower_idempotent (s : string) : lower (lower s) = lower s.
Proof.
  induction s as [|c s IH]; simpl; [reflexivity|].
  now rewrite to_lower_idempotent, IH.
Qed.

Lemma prefix_append (p rest : string) : prefix p (p ++ rest)%string = true.
Proof.
  induction p as [|c p IH]; simpl; [now destruct rest|].
  destruct (ascii_dec c c); [exact IH | congruence].
Qed.

Lemma prefix_split (p s : string) :
  prefix p s = true -> exists rest, s = (p ++ rest)%string.
Proof.
  revert s. induction p as [|c p IH]; intros s; simpl.
  - intros _. now exists s.
  - destruct s as [|d s]; simpl; [discriminate|].
    destruct (ascii_dec c d) as [->|]; [|discriminate].
    intros H. destruct (IH s H) as [rest ->]. now exists rest.
Qed.

Lemma contains_cons (needle : string) (c : ascii) (rest : string) :
  contains needle (String c rest)
  = prefix needle (String c rest) || contains needle rest.
Proof. reflexivity. Qed.

Lemma contains_nil (needle : string) :
  contains needle "" = prefix needle "" || false.
Proof. reflexivity. Qed.

Lemma contains_prefix (needle haystack : string) :
  prefix needle haystack = true -> contains needle haystack = true.
Proof.
  intros H. destruct haystack; [rewrite contains_nil | rewrite contains_cons];
    now rewrite H.
Qed.

(** [needle in haystack] holds exactly when the haystack is some text,
    the needle, and some more text. *)
Lemma contains_iff (needle haystack : string) :
  contains needle haystack = true <->
  exists before after, haystack = (before ++ needle ++ after)%string.
Proof.
  split.
  - induction haystack as [|c h IH].
    + rewrite contains_nil, orb_false_r. intros H. destruct (prefix_split _ _ H) as [rest ->].
      now exists ""%string, rest.
    + rewrite contains_cons. intros H. apply orb_true_iff in H.
      destruct H as [H | H].
      * destruct (prefix_split _ _ H) as [rest ->]. now exists ""%string, rest.
      * destruct (IH H) as (before & after & ->).
        now exists (String c before), after.
  - intros (before & after & ->).
    induction before as [|c before IH].
    + change ("" ++ needle ++ after)%string with (needle ++ after)%string.
      apply contains_prefix, prefix_append.
    + change (String c before ++ needle ++ after)%string
        with (String c (before ++ needle ++ after)%string).
      rewrite contains_cons, IH. apply orb_true_r.
Qed.

(** ** The reply does not depend on letter case or on the user *)

Lemma generate_response_lower (self : PerfumeAI) (message : string) (g : rng) :
  generate_response self (lower message) g = generate_response self message g.
Proof.
  unfold generate_response, answer_faq, find_perfume, intent_step, find_intent.
  now rewrite !lower_idempotent.
Qed.

Lemma get_suggestions_lower (set_order : list string -> list string)
  (PERFUMES : list perfume) (response_type message : string) :
  get_suggestions set_order PERFUMES response_type (lower message)
  = get_suggestions set_order PERFUMES response_type message.
Proof. unfold get_suggestions. now rewrite !lower_idempotent. Qed.

(** X1.  The outcome of [POST /chat] is the same for a message and for
    its lower-cased form, and whatever user identifier, if any, comes with
    the request. *)
Theorem chat_ignores_case_and_user :
  forall (set_order : list string -> list string) (ai : PerfumeAI)
         (message : string) (user other_user : option string)
         (now : string) (g : rng),
    chat set_order ai {| cr_message := lower message; cr_user_id := user |} now g
    = chat set_order ai {| cr_message := message; cr_user_id := other_user |} now g.
Proof.
  intros. unfold chat. simpl.
  rewrite generate_response_lower.
  destruct (generate_response ai message g) as [[r g']|e]; simpl; [|reflexivity].
  now rewrite get_suggestions_lower.
Qed.

(** ** Loading again *)

Lemma add_ids_identified (i : Z) (l : list perfume) :
  Forall (fun p => p_id p <> None) l -> add_ids i l = l.
Proof.
  revert i. induction l as [|p l IH]; intros i Hall; simpl; [reflexivity|].
  inversion Hall as [|? ? Hp Hl]; subst.
  rewrite (IH (i + 1)%Z Hl). destruct (p_id p); [reflexivity | congruence].
Qed.

Lemma loaded_all_identified (src : source) (ps : list perfume) (fs : list faq)
  (ins : list intent) :
  load_training_data src = Return (ps, fs, ins) ->
  Forall (fun p => p_id p <> None) ps.
Proof.
  destruct src as [| |[data| | | | |]]; simpl; try discriminate;
    intros [= <- <- <-].
  - repeat constructor; simpl; discriminate.
  - constructor.
  - apply add_ids_all_identified.
Qed.

(** X2.  Whatever a source loads into, a file holding exactly those three
    lists loads into the same three lists: identifiers are only ever added
    once. *)
Theorem load_training_data_stable :
  forall (src : source) (ps : list perfume) (fs : list faq) (ins : list intent),
    load_training_data src = Return (ps, fs, ins) ->
    load_training_data
      (Parsed (DocObject {| td_perfumes := Some ps; td_faqs := Some fs;
                            td_intents := Some ins |}))
    = Return (ps, fs, ins).
Proof.
  intros src ps fs ins Hload. simpl.
  now rewrite (add_ids_identified 0 ps (loaded_all_identified _ _ _ _ Hload)).
Qed.

Lemma load_training_data_stable_witness :
  load_training_data
    (Parsed (DocObject {| td_perfumes := Some (add_ids 0 sample_perfumes);
                          td_faqs := Some sample_faqs;
                          td_intents := Some sample_intents |}))
  = Return (add_ids 0 sample_perfumes, sample_faqs, sample_intents).
Proof.
  exact (load_training_data_stable (Parsed (DocObject sample_data))
           (add_ids 0 sample_perfumes) sample_faqs sample_intents eq_refl).
Defined.

(** ** [GET /perfumes/{id}] *)

Lemma first_with_id_found (before after : list perfume) (p : perfume) (k : Z) :
  p_id p = Some k ->
  (forall x, In x before -> exists k', p_id x = Some k' /\ k' <> k) ->
  first_with_id (before ++ p :: after) k = Return (Some p).
Proof.
  intros Hp. induction before as [|b before IH]; intros Hbefore; simpl.
  - rewrite Hp. simpl. now rewrite Z.eqb_refl.
  - destruct (Hbefore b (or_introl eq_refl)) as (k' & -> & Hne). simpl.
    apply Z.eqb_neq in Hne. rewrite Hne.
    apply IH. intros x Hx. apply Hbefore. now right.
Qed.

Lemma first_with_id_sound (l : list perfume) (k : Z) (p : perfume) :
  first_with_id l k = Return (Some p) -> In p l /\ p_id p = Some k.
Proof.
  induction l as [|a l IH]; simpl; [discriminate|].
  destruct (p_id a) as [ka|] eqn:Ha; simpl; [|discriminate].
  destruct (Z.eqb ka k) eqn:Hk.
  - intros [= <-]. apply Z.eqb_eq in Hk. subst. auto.
  - intros H. destruct (IH H). auto.
Qed.

Lemma first_with_id_none (l : list perfume) (k : Z) :
  first_with_id l k = Return None -> ~ In (Some k) (map p_id l).
Proof.
  induction l as [|a l IH]; simpl; [tauto|].
  destruct (p_id a) as [ka|] eqn:Ha; simpl; [|discriminate].
  destruct (Z.eqb ka k) eqn:Hk; [discriminate|].
  apply Z.eqb_neq in Hk. intros H [Heq | Hin].
  - congruence.
  - now apply IH.
Qed.

Lemma first_with_id_returns (l : list perfume) (k : Z) :
  Forall (fun p => p_id p <> None) l ->
  exists found, first_with_id l k = Return found.
Proof.
  induction 1 as [|a l Ha _ IH]; simpl; [eauto|].
  destruct (p_id a) as [ka|]; [|congruence]. simpl.
  destruct (Z.eqb ka k); eauto.
Qed.

Lemma identified_is_truthy (p : perfume) : p_id p <> None -> perfume_truthy p = true.
Proof. unfold perfume_truthy. destruct (p_id p); [reflexivity | congruence]. Qed.

Lemma get_perfume_sound (PERFUMES : list perfume) (k : Z) (p : perfume) :
  get_perfume PERFUMES k = Respond p -> In p PERFUMES /\ p_id p = Some k.
Proof.
  unfold get_perfume.
  destruct (first_with_id PERFUMES k) as [[q|]|e] eqn:Hfirst; try discriminate.
  destruct (perfume_truthy q); [|discriminate].
  intros [= <-]. now apply first_with_id_sound.
Qed.

Lemma get_perfume_first (before after : list perfume) (p : perfume) (k : Z) :
  p_id p = Some k ->
  (forall x, In x before -> exists k', p_id x = Some k' /\ k' <> k) ->
  get_perfume (before ++ p :: after) k = Respond p.
Proof.
  intros Hp Hbefore. unfold get_perfume.
  rewrite (first_with_id_found before after p k Hp Hbefore).
  rewrite identified_is_truthy; [reflexivity | congruence].
Qed.

(** X3.  The endpoint serves the first product, in catalog order, that
    has the requested identifier; a different product listed after it with
    the same identifier is served for no identifier at all. *)
Theorem get_perfume_serves_first :
  forall (PERFUMES before after : list perfume) (p : perfume) (k : Z),
    PERFUMES = before ++ p :: after ->
    p_id p = Some k ->
    (forall x, In x before -> exists k', p_id x = Some k' /\ k' <> k) ->
    get_perfume PERFUMES k = Respond p /\
    (forall q k', In q after -> p_id q = Some k -> q <> p ->
                  get_perfume PERFUMES k' <> Respond q).
Proof.
  intros PERFUMES before after p k -> Hp Hbefore.
  pose proof (get_perfume_first before after p k Hp Hbefore) as Hserve.
  split; [exact Hserve|].
  intros q k' _ Hq Hne Hserved.
  destruct (get_perfume_sound _ _ _ Hserved) as [_ Hk'].
  assert (k' = k) by congruence. subst k'.
  rewrite Hserve in Hserved. congruence.
Qed.

(** On what [colliding_data] loads into, identifier 2 serves Amber. *)
Lemma get_perfume_serves_first_witness :
  get_perfume (add_ids 0 [set_id (named "Amber") 2; named "Birch"]) 2
  = Respond (set_id (named "Amber") 2).
Proof.
  apply (proj1 (get_perfume_serves_first
                  (add_ids 0 [set_id (named "Amber") 2; named "Birch"])
                  [] [set_id (named "Birch") 2] (set_id (named "Amber") 2) 2%Z
                  eq_refl eq_refl (fun x (H : In x []) => match H with end))).
Defined.

(** X4.  On a catalog in which every product has an identifier (every
    loaded catalog is one), the endpoint serves a product of the catalog
    with the requested identifier when there is one, and otherwise raises
    the 404 "Perfume not found"; nothing else can happen. *)
Theorem get_perfume_found_or_404 :
  forall (PERFUMES : list perfume) (k : Z),
    Forall (fun p => p_id p <> None) PERFUMES ->
    (In (Some k) (map p_id PERFUMES) ->
     exists p, get_perfume PERFUMES k = Respond p /\
               In p PERFUMES /\ p_id p = Some k) /\
    (~ In (Some k) (map p_id PERFUMES) ->
     get_perfume PERFUMES k = HTTPException 404 "Perfume not found").
Proof.
  intros PERFUMES k Hall.
  destruct (first_with_id_returns PERFUMES k Hall) as [[p|] Hfirst].
  - destruct (first_with_id_sound _ _ _ Hfirst) as [Hin Hid].
    assert (Hserve : get_perfume PERFUMES k = Respond p).
    { unfold get_perfume. rewrite Hfirst.
      rewrite identified_is_truthy; [reflexivity | congruence]. }
    split.
    + intros _. exists p. auto.
    + intros Hnot. exfalso. apply Hnot. rewrite <- Hid. now apply in_map.
  - split.
    + intros Hin. exfalso. exact (first_with_id_none _ _ Hfirst Hin).
    + intros _. unfold get_perfume. now rewrite Hfirst.
Qed.

Lemma get_perfume_found_or_404_witness :
  get_perfume default_perfumes 7 = HTTPException 404 "Perfume not found".
Proof.
  apply (proj2 (get_perfume_found_or_404 default_perfumes 7
                  (loaded_all_identified FileNotFound _ _ _ eq_refl))).
  simpl. intros [H | [H | [H | []]]]; discriminate.
Defined.

(** X5.  When the identifiers of a loaded catalog are pairwise different,
    every product of it is served by its own identifier. *)
Theorem loaded_perfume_served_by_its_id :
  forall (src : source) (ps : list perfume) (fs : list faq) (ins : list intent),
    load_training_data src = Return (ps, fs, ins) ->
    NoDup (map p_id ps) ->
    forall p, In p ps ->
      exists k, p_id p = Some k /\ get_perfume ps k = Respond p.
Proof.
  intros src ps fs ins Hload Hnodup p Hin.
  pose proof (loaded_all_identified _ _ _ _ Hload) as Hall.
  destruct (p_id p) as [k|] eqn:Hk.
  2:{ rewrite Forall_forall in Hall. now destruct (Hall p Hin). }
  exists k. split; [reflexivity|].
  destruct (in_split _ _ Hin) as (before & after & ->).
  apply get_perfume_first; [exact Hk|].
  intros x Hx. rewrite Forall_forall in Hall.
  destruct (p_id x) as [k'|] eqn:Hx'.
  2:{ destruct (Hall x); [apply in_or_app; now left | assumption]. }
  exists k'. split; [reflexivity|]. intros ->.
  rewrite map_app in Hnodup. simpl in Hnodup. rewrite Hk in Hnodup.
  apply NoDup_remove_2 in Hnodup. apply Hnodup.
  apply in_or_app. left. rewrite <- Hx'. now apply in_map.
Qed.

(** The sample data, loaded: the second perfume is served by 2. *)
Lemma loaded_perfume_served_by_its_id_witness :
  exists k,
    p_id (with_position 1 (nth 1 sample_perfumes (named ""))) = Some k /\
    get_perfume (add_ids 0 sample_perfumes) k
    = Respond (with_position 1 (nth 1 sample_perfumes (named ""))).
Proof.
  apply (loaded_perfume_served_by_its_id (Parsed (DocObject sample_data))
           (add_ids 0 sample_perfumes) sample_faqs sample_intents eq_refl).
  - simpl. repeat constructor; simpl; intuition discriminate.
  - simpl. tauto.
Defined.

(** ** When the entity matcher answers *)

(** X6.  The entity matcher answers nothing exactly when no product of
    the catalog matches the query by name, by category or by a note; an
    answer is always a product of the catalog that matches in one of the
    three ways. *)
Theorem find_perfume_answers_iff_some_match :
  forall (self : PerfumeAI) (query : string),
    (find_perfume self query = None <->
     forall p, In p (perfumes self) ->
       name_matches (lower query) p = false /\
       category_matches (lower query) p = false /\
       note_matches (lower query) p = false) /\
    (forall p, find_perfume self query = Some p ->
       In p (perfumes self) /\
       (name_matches (lower query) p = true \/
        category_matches (lower query) p = true \/
        note_matches (lower query) p = true)).
Proof.
  intros self query. unfold find_perfume. split; [split|].
  - destruct (find (name_matches _) _) eqn:Hn; [discriminate|].
    destruct (find (category_matches _) _) eqn:Hc; [discriminate|].
    intros Hnote p Hp. repeat split; eapply find_none; eassumption.
  - intros Hall.
    rewrite (find_none_all (name_matches (lower query)))
      by (intros y Hy; apply (Hall y Hy)).
    rewrite (find_none_all (category_matches (lower query)))
      by (intros y Hy; apply (Hall y Hy)).
    apply find_none_all. intros y Hy. apply (Hall y Hy).
  - intros p.
    destruct (find (name_matches _) _) eqn:Hn.
    { intros [= <-]. apply find_some in Hn. tauto. }
    destruct (find (category_matches _) _) eqn:Hc.
    { intros [= <-]. apply find_some in Hc. tauto. }
    intros Hnote. apply find_some in Hnote. tauto.
Qed.

Lemma find_perfume_answers_iff_some_match_witness :
  find_perfume (init (default_perfumes, [], [])) "good evening" = None.
Proof.
  apply (proj1 (find_perfume_answers_iff_some_match
                  (init (default_perfumes, [], [])) "good evening")).
  intros p Hp. each_member Hp; repeat split; reflexivity.
Defined.

Lemma find_not_none {A : Type} (f : A -> bool) (l : list A) (x : A) :
  In x l -> f x = true -> find f l <> None.
Proof. intros Hin Hx Hnone. now rewrite (find_none f l Hnone x Hin) in Hx. Qed.

(** X7.  If some product of a catalog with identifiers has a missing or
    empty name or category, the entity matcher answers every message, so
    no reply is ever a greeting, a recommendation, a price list, a category
    list or the fallback: a reply is an FAQ answer or a perfume card. *)
Theorem blank_field_hides_the_intents :
  forall (self : PerfumeAI) (p : perfume),
    In p (perfumes self) ->
    get (p_name p) "" = "" \/ get (p_category p) "" = "" ->
    Forall (fun x => p_id x <> None) (perfumes self) ->
    forall (message : string) (g : rng),
      find_perfume self message <> None /\
      (forall r g', generate_response self message g = Return (r, g') ->
                    r_type r = "faq" \/ r_type r = "perfume_info").
Proof.
  intros self p Hin Hblank Hall message g.
  assert (Hfound : find_perfume self message <> None).
  { unfold find_perfume.
    destruct (find (name_matches _) _) eqn:Hn; [discriminate|].
    destruct (find (category_matches _) _) eqn:Hc; [discriminate|].
    exfalso. destruct Hblank as [Hb | Hb].
    - apply (find_not_none _ _ p Hin) in Hn; [assumption|].
      unfold name_matches. rewrite Hb. apply contains_empty.
    - apply (find_not_none _ _ p Hin) in Hc; [assumption|].
      unfold category_matches. rewrite Hb. apply contains_empty. }
  split; [exact Hfound|].
  intros r g'. unfold generate_response.
  destruct (truthy (answer_faq self message)).
  { intros [= <- <-]. now left. }
  destruct (find_perfume self message) as [x|] eqn:Hx; [|congruence].
  rewrite Forall_forall in Hall.
  rewrite (identified_is_truthy x (Hall x (find_perfume_In _ _ _ Hx))).
  destruct (perfume_card x); simpl; [|discriminate].
  intros [= <- <-]. now right.
Qed.

(** A greeting is answered with a card once a product has no category. *)
Lemma blank_field_hides_the_intents_witness :
  find_perfume (init ([set_id (named "Amber") 1], [], [])) "hello" <> None.
Proof.
  refine (proj1 (blank_field_hides_the_intents
                   (init ([set_id (named "Amber") 1], [], []))
                   (set_id (named "Amber") 1) _ _ _ "hello" [])).
  - simpl. tauto.
  - right. reflexivity.
  - repeat constructor. simpl. discriminate.
Defined.

(** ** Entries that can never match, and entries that always do *)

Lemma is_space_to_lower (c : ascii) : is_space c = true -> to_lower c = c.
Proof. destruct c as [[] [] [] [] [] [] [] []]; intros H; try reflexivity; discriminate. Qed.

Lemma split_blank (s : string) :
  (forall c, In c (list_ascii_of_string s) -> is_space c = true) ->
  split (lower s) = [].
Proof.
  unfold split. induction s as [|c s IH]; intros Hblank; simpl; [reflexivity|].
  assert (Hc : is_space c = true) by (apply Hblank; now left).
  rewrite (is_space_to_lower c Hc), Hc. simpl.
  apply IH. intros d Hd. apply Hblank. now right.
Qed.

Lemma find_skip {A : Type} (f : A -> bool) (before after : list A) (x : A) :
  f x = false -> find f (before ++ x :: after) = find f (before ++ after).
Proof.
  intros Hx. induction before as [|b before IH]; simpl.
  - now rewrite Hx.
  - now rewrite IH.
Qed.

(** X8.  An FAQ whose question is missing, empty or made of white space
    only matches no input: taking it out of the list changes no answer. *)
Theorem blank_question_never_answers :
  forall (self : PerfumeAI) (before after : list faq) (f : faq),
    faqs self = before ++ f :: after ->
    (forall c, In c (list_ascii_of_string (get (f_question f) "")) ->
               is_space c = true) ->
    forall question : string,
      faq_matches (lower question) f = false /\
      answer_faq self question
      = answer_faq {| perfumes := perfumes self; faqs := before ++ after;
                      intents := intents self |} question.
Proof.
  intros self before after f Hsplit Hblank question.
  assert (Hno : faq_matches (lower question) f = false).
  { unfold faq_matches, faq_keywords. now rewrite (split_blank _ Hblank). }
  split; [exact Hno|].
  unfold answer_faq. simpl. now rewrite Hsplit, (find_skip _ before after f Hno).
Qed.

Lemma blank_question_never_answers_witness :
  answer_faq (init ([], {| f_question := Some "   "; f_answer := Some "Yes" |}
                          :: sample_faqs, [])) "how long"
  = answer_faq (init ([], sample_faqs, [])) "how long".
Proof.
  refine (proj2 (blank_question_never_answers
                  (init ([], {| f_question := Some "   "; f_answer := Some "Yes" |}
                               :: sample_faqs, []))
                  [] sample_faqs
                  {| f_question := Some "   "; f_answer := Some "Yes" |}
                  eq_refl _ "how long")).
  intros c H. simpl in H. intuition (subst; reflexivity).
Defined.

(** X9.  A stored intent that has the empty string among its patterns
    matches every message: the classifier then always answers from a
    stored intent, that one or one listed before it, and the built-in
    keyword groups are never consulted. *)
Theorem empty_pattern_captures_every_message :
  forall (self : PerfumeAI) (before after : list intent) (i : intent),
    intents self = before ++ i :: after ->
    In "" (get (i_patterns i) []) ->
    forall message : string,
      exists j,
        find (intent_matches (lower message)) (intents self) = Some j /\
        find_intent self message = get (i_name j) "unknown" /\
        (j = i \/ In j before).
Proof.
  intros self before after i Hsplit Hempty message.
  assert (Hi : intent_matches (lower message) i = true).
  { apply intent_matches_true. exists ""%string. split; [exact Hempty|].
    apply contains_empty. }
  destruct (find_no_later (intent_matches (lower message)) before after i Hi)
    as (j & Hfind & _ & Hwhere).
  exists j. unfold find_intent. rewrite Hsplit, Hfind. auto.
Qed.

Lemma empty_pattern_captures_every_message_witness :
  exists j,
    find (intent_matches (lower "how much is it"))
         [{| i_name := Some "anything"; i_patterns := Some [""];
             i_responses := None |}]
    = Some j /\
    find_intent (init ([], [], [{| i_name := Some "anything";
                                   i_patterns := Some [""];
                                   i_responses := None |}])) "how much is it"
    = get (i_name j) "unknown" /\
    (j = {| i_name := Some "anything"; i_patterns := Some [""];
            i_responses := None |} \/ In j []).
Proof.
  apply (empty_pattern_captures_every_message
           (init ([], [], [{| i_name := Some "anything"; i_patterns := Some [""];
                              i_responses := None |}]))
           [] [] _ eq_refl (or_introl eq_refl) "how much is it").
Defined.

(** ** The shape of a reply *)

(** Every way [generate_response] can end, one goal for each. *)
Ltac reply_cases self :=
  unfold generate_response, intent_step, fallback_step;
  repeat match goal with
         | |- context [if ?c then _ else _] => destruct c eqn:?
         | |- context [match find_perfume ?s ?m with _ => _ end] =>
             destruct (find_perfume s m) eqn:?
         | |- context [match perfumes self with _ => _ end] =>
             destruct (perfumes self) eqn:?
         | |- context [let (_, _) := ?c in _] => destruct c eqn:?
         | |- context [bind ?c _] => destruct c eqn:?; simpl
         | |- context [match find ?f ?l with _ => _ end] =>
             destruct (find f l) eqn:?
         | |- context [match filter ?f ?l with _ => _ end] =>
             destruct (filter f l) eqn:?
         end.

(** X10.  Whenever a reply is produced, on any catalog, its type and
    confidence form one of seven fixed pairs; the confidence lies between
    0 and 1. *)
Theorem reply_type_fixes_confidence :
  forall (self : PerfumeAI) (message : string) (g : rng) (r : response) (g' : rng),
    generate_response self message g = Return (r, g') ->
    In (r_type r, r_confidence r)
       [("faq", 0.9%Q); ("perfume_info", 0.8%Q); ("greeting", 0.9%Q);
        ("recommendation", 0.8%Q); ("price_info", 0.7%Q);
        ("category_info", 0.8%Q); ("fallback", 0.3%Q)] /\
    (0 <= r_confidence r)%Q /\ (r_confidence r <= 1)%Q.
Proof.
  intros self message g r g'. reply_cases self;
    intros [= <- <-]; simpl;
    (split; [auto 10 | split; discriminate]).
Qed.

Lemma reply_type_fixes_confidence_witness :
  exists r g',
    generate_response (init (sample_perfumes, sample_faqs, sample_intents))
      "good evening" [] = Return (r, g') /\
    (r_confidence r <= 1)%Q.
Proof.
  eexists _, _. split; [reflexivity|].
  exact (proj2 (proj2 (reply_type_fixes_confidence
                         (init (sample_perfumes, sample_faqs, sample_intents))
                         "good evening" [] _ _ eq_refl))).
Defined.

(** ** Which replies use the random generator *)

Lemma randbelow_below (n : nat) (g : rng) :
  n <> 0%nat -> (fst (randbelow n g) < n)%nat /\ snd (randbelow n g) = tl g.
Proof.
  intros Hn. destruct g as [|x g]; simpl.
  - split; [lia | reflexivity].
  - split; [now apply Nat.mod_upper_bound | reflexivity].
Qed.

Lemma choice_in {A : Type} (default : A) (seq : list A) (g : rng) :
  seq <> [] ->
  In (fst (choice default seq g)) seq /\ snd (choice default seq g) = tl g.
Proof.
  intros Hseq. unfold choice.
  destruct (randbelow_below (length seq) g) as [Hlt Htl].
  { now destruct seq. }
  destruct (randbelow (length seq) g) as [i g1]. simpl in *.
  split; [now apply nth_In | exact Htl].
Qed.

(** X11.  An FAQ answer, a perfume card, a price list and a category
    list are produced without touching the random generator: the generator
    is handed back as it was, and the same reply comes out whatever its
    state. *)
Theorem fixed_replies_ignore_the_generator :
  forall (self : PerfumeAI) (message : string) (g : rng) (r : response) (g' : rng),
    generate_response self message g = Return (r, g') ->
    r_type r = "faq" \/ r_type r = "perfume_info" \/
    r_type r = "price_info" \/ r_type r = "category_info" ->
    g' = g /\
    forall g2, generate_response self message g2 = Return (r, g2).
Proof.
  intros self message g r g'. reply_cases self;
    intros [= <- <-] Htype; simpl in Htype;
    try (exfalso; decompose [or] Htype; discriminate);
    (split; [reflexivity | intros g2; reflexivity]).
Qed.

Lemma fixed_replies_ignore_the_generator_witness :
  exists r,
    r_type r = "perfume_info"%string /\
    forall g2,
      generate_response (init (default_perfumes, [], [])) "citrus" g2
      = Return (r, g2).
Proof.
  eexists. split; [|
    apply (fixed_replies_ignore_the_generator
             (init (default_perfumes, [], [])) "citrus" [] _ [] eq_refl);
    right; left; reflexivity].
  reflexivity.
Defined.

(** X12.  A greeting is one of the three greeting sentences and the
    fallback one of the three fallback sentences, each chosen with exactly
    one draw; an FAQ reply is, word for word, the answer the FAQ matcher
    returned, and that answer is not empty. *)
Theorem canned_replies_come_from_the_pools :
  forall (self : PerfumeAI) (message : string) (g : rng) (r : response) (g' : rng),
    generate_response self message g = Return (r, g') ->
    (r_type r = "greeting" ->
       In (r_response r) greeting_responses /\ g' = tl g) /\
    (r_type r = "fallback" ->
       In (r_response r) fallback_responses /\ g' = tl g) /\
    (r_type r = "faq" ->
       answer_faq self message = Some (r_response r) /\ r_response r <> ""%string).
Proof.
  intros self message g r g'.
  assert (Hgreet : forall text g1,
            choice ""%string greeting_responses g = (text, g1) ->
            In text greeting_responses /\ g1 = tl g).
  { intros text g1 H.
    destruct (choice_in ""%string greeting_responses g) as [Hin Htl];
      [discriminate|]. rewrite H in *. auto. }
  assert (Hfall : forall text g1,
            choice ""%string fallback_responses g = (text, g1) ->
            In text fallback_responses /\ g1 = tl g).
  { intros text g1 H.
    destruct (choice_in ""%string fallback_responses g) as [Hin Htl];
      [discriminate|]. rewrite H in *. auto. }
  reply_cases self; intros [= <- <-]; cbn [r_type r_response];
    repeat split; intros; try discriminate;
    try (destruct (Hgreet _ _ eq_refl); assumption);
    try (destruct (Hfall _ _ eq_refl); assumption).
  - destruct (answer_faq self message) as [a|]; [reflexivity | discriminate].
  - destruct (answer_faq self message) as [a|]; [|discriminate]. simpl in *.
    intros ->. discriminate.
Qed.

Lemma canned_replies_come_from_the_pools_witness :
  exists r g',
    generate_response (init ([], [], [])) "good evening" [5%nat; 7%nat]
    = Return (r, g') /\
    In (r_response r) fallback_responses /\ g' = [7%nat].
Proof.
  eexists _, _. split; [reflexivity|].
  apply (proj1 (proj2 (canned_replies_come_from_the_pools
                         (init ([], [], [])) "good evening" [5%nat; 7%nat]
                         _ _ eq_refl))).
  reflexivity.
Defined.

(** ** The recommended products *)

Lemma remove_at_permutation {A : Type} (l : list A) (i : nat) (x : A) :
  nth_error l i = Some x -> Permutation l (x :: remove_at i l).
Proof.
  revert i. induction l as [|a l IH]; intros [|i]; simpl; try discriminate.
  - intros [= ->]. reflexivity.
  - intros H. rewrite perm_swap. constructor. now apply IH.
Qed.

Lemma sample_permutation {A : Type} (k : nat) (population : list A) (g : rng) :
  exists rest, Permutation population (fst (sample population k g) ++ rest).
Proof.
  revert population g. induction k as [|k IH]; intros population g; simpl.
  - now exists population.
  - destruct (randbelow (length population) g) as [i g1].
    destruct (nth_error population i) as [x|] eqn:Hx; simpl.
    + destruct (IH (remove_at i population) g1) as [rest Hrest].
      destruct (sample (remove_at i population) k g1) as [picked g2].
      simpl in *. exists rest.
      rewrite (remove_at_permutation population i x Hx). now constructor.
    + now exists population.
Qed.

Lemma remove_at_length {A : Type} (l : list A) (i : nat) :
  (i < length l)%nat -> length (remove_at i l) = pred (length l).
Proof.
  revert i. induction l as [|a l IH]; intros [|i]; simpl; try lia.
  intros H. rewrite IH by lia. destruct l; simpl in *; lia.
Qed.

Lemma sample_length {A : Type} (k : nat) (population : list A) (g : rng) :
  (k <= length population)%nat ->
  length (fst (sample population k g)) = k.
Proof.
  revert population g. induction k as [|k IH]; intros population g Hk; simpl.
  - reflexivity.
  - destruct (randbelow_below (length population) g) as [Hlt _]; [lia|].
    destruct (randbelow (length population) g) as [i g1]. simpl in Hlt.
    destruct (nth_error population i) as [x|] eqn:Hx.
    + specialize (IH (remove_at i population) g1).
      rewrite remove_at_length in IH by assumption.
      destruct (sample (remove_at i population) k g1) as [picked g2].
      simpl in *. rewrite IH; lia.
    + apply nth_error_None in Hx. lia.
Qed.

(** X13.  A recommendation carries the list of recommended products:
    three of them, or all of them when the catalog has fewer, each one a
    product of the catalog, taken at different positions (so that no
    product comes twice unless the catalog lists it twice). *)
Theorem recommendation_picks_catalog_products :
  forall (self : PerfumeAI) (message : string) (g : rng) (r : response) (g' : rng),
    generate_response self message g = Return (r, g') ->
    r_type r = "recommendation" ->
    exists picked,
      r_perfumes r = Some picked /\
      length picked = Nat.min 3 (length (perfumes self)) /\
      picked <> [] /\
      (forall p, In p picked -> In p (perfumes self)) /\
      (exists rest, Permutation (perfumes self) (picked ++ rest)) /\
      (NoDup (perfumes self) -> NoDup picked).
Proof.
  intros self message g r g'.
  assert (Hpick : forall picked g1,
            perfumes self <> [] ->
            sample (perfumes self) (Nat.min 3 (length (perfumes self))) g
            = (picked, g1) ->
            length picked = Nat.min 3 (length (perfumes self)) /\
            picked <> [] /\
            (forall p, In p picked -> In p (perfumes self)) /\
            (exists rest, Permutation (perfumes self) (picked ++ rest)) /\
            (NoDup (perfumes self) -> NoDup picked)).
  { intros picked g1 Hne Hs.
    pose proof (sample_length (Nat.min 3 (length (perfumes self)))
                  (perfumes self) g (Nat.le_min_r _ _)) as Hlen.
    pose proof (sample_permutation (Nat.min 3 (length (perfumes self)))
                  (perfumes self) g) as [rest Hperm].
    pose proof (fun p => sample_incl (Nat.min 3 (length (perfumes self)))
                           (perfumes self) g p) as Hincl.
    rewrite Hs in *. simpl in *.
    split; [exact Hlen|]. split.
    - intros ->. simpl in Hlen. destruct (perfumes self); [congruence|].
      simpl in Hlen. lia.
    - split; [exact Hincl|]. split; [now exists rest|].
      intros Hnodup. apply (Permutation_NoDup Hperm) in Hnodup.
      now apply NoDup_app_remove_r in Hnodup. }
  assert (Hstep : intent_step self message g = Return (r, g') ->
                  r_type r = "recommendation" ->
                  exists picked g1,
                    perfumes self <> [] /\
                    sample (perfumes self)
                           (Nat.min 3 (length (perfumes self))) g = (picked, g1) /\
                    r_perfumes r = Some picked).
  { unfold intent_step.
    destruct (String.eqb (find_intent self message) "greeting").
    { destruct (choice _ _ g). intros [= <- <-]. discriminate. }
    destruct (String.eqb (find_intent self message) "recommendation").
    { destruct (perfumes self) as [|p0 rest] eqn:Hps.
      - unfold fallback_step. destruct (choice _ _ g).
        intros [= <- <-]. discriminate.
      - rewrite <- Hps.
        destruct (sample (perfumes self) _ g) as [picked g1] eqn:Hs.
        destruct (for_each recommendation_line _ picked); simpl; [|discriminate].
        intros [= <- <-] _. exists picked, g1.
        split; [congruence|]. split; reflexivity. }
    unfold fallback_step.
    repeat match goal with
           | |- context [if ?c then _ else _] => destruct c
           | |- context [match perfumes self with _ => _ end] =>
               destruct (perfumes self)
           | |- context [let (_, _) := ?c in _] => destruct c
           | |- context [bind ?c _] => destruct c; simpl
           | |- context [match find ?f ?l with _ => _ end] => destruct (find f l)
           | |- context [match filter ?f ?l with _ => _ end] =>
               destruct (filter f l)
           end;
      intros [= <- <-]; discriminate. }
  intros Hrun Htype.
  assert (Hrun' : intent_step self message g = Return (r, g')).
  { revert Hrun. unfold generate_response.
    destruct (truthy (answer_faq self message)).
    { intros [= <- <-]. discriminate. }
    destruct (find_perfume self message) as [p|]; [|trivial].
    destruct (perfume_truthy p); [|trivial].
    destruct (perfume_card p); simpl; [|discriminate].
    intros [= <- <-]. discriminate. }
  destruct (Hstep Hrun' Htype) as (picked & g1 & Hne & Hs & Hr).
  exists picked. split; [exact Hr|]. now apply (Hpick picked g1).
Qed.

Lemma recommendation_picks_catalog_products_witness :
  exists r g' picked,
    generate_response (init (default_perfumes, [], [])) "recommend one"
      [4%nat; 1%nat; 0%nat] = Return (r, g') /\
    r_perfumes r = Some picked /\ length picked = 3%nat.
Proof.
  destruct (recommendation_picks_catalog_products
              (init (default_perfumes, [], [])) "recommend one"
              [4%nat; 1%nat; 0%nat] _ _ eq_refl eq_refl)
    as (picked & Hpicked & Hlen & _).
  eexists _, _, picked. split; [reflexivity|]. split; [exact Hpicked | exact Hlen].
Defined.

(** ** A matched perfume with a missing key *)

(** X14.  When the FAQ step gives no answer and the matched perfume has
    no name, no reply is produced: [generate_response] raises the
    [KeyError] of the key [name], and [POST /chat] turns it into the error
    500 whose detail is that key between quotes.  The same happens with
    the key [price] when the name is there and the price is not. *)
Theorem matched_perfume_without_key_is_an_error :
  forall (self : PerfumeAI) (message : string) (g : rng) (p : perfume),
    truthy (answer_faq self message) = false ->
    find_perfume self message = Some p ->
    perfume_truthy p = true ->
    (p_name p = None ->
       generate_response self message g = Raise (KeyError "name") /\
       forall set_order user now,
         chat set_order self {| cr_message := message; cr_user_id := user |} now g
         = HTTPException 500 "'name'") /\
    (p_name p <> None -> p_price p = None ->
       generate_response self message g = Raise (KeyError "price") /\
       forall set_order user now,
         chat set_order self {| cr_message := message; cr_user_id := user |} now g
         = HTTPException 500 "'price'").
Proof.
  intros self message g p Hfaq Hfind Htruthy.
  assert (Hname : p_name p = None ->
                  generate_response self message g = Raise (KeyError "name")).
  { intros Hn. unfold generate_response, perfume_card.
    now rewrite Hfaq, Hfind, Htruthy, Hn. }
  assert (Hprice : p_name p <> None -> p_price p = None ->
                   generate_response self message g = Raise (KeyError "price")).
  { intros Hn Hp. unfold generate_response, perfume_card.
    rewrite Hfaq, Hfind, Htruthy, Hp.
    destruct (p_name p); [reflexivity | congruence]. }
  split.
  - intros Hn. split; [now apply Hname|].
    intros. unfold chat. simpl. now rewrite (Hname Hn).
  - intros Hn Hp. split; [now apply Hprice|].
    intros. unfold chat. simpl. now rewrite (Hprice Hn Hp).
Qed.

Lemma matched_perfume_without_key_is_an_error_witness :
  chat (fun l => l) (init ([unnamed_perfume], [], []))
       {| cr_message := "hello"; cr_user_id := None |} "2026-01-01T00:00:00" []
  = HTTPException 500 "'name'".
Proof.
  apply (proj1 (matched_perfume_without_key_is_an_error
                  (init ([unnamed_perfume], [], [])) "hello" [] unnamed_perfume
                  eq_refl eq_refl eq_refl) eq_refl).
Defined.

(** ** What the perfume card shows *)

Lemma contains_refl (s : string) : contains s s = true.
Proof.
  apply contains_iff. exists ""%string, ""%string. simpl.
  induction s as [|c s IH]; simpl; [reflexivity | now rewrite <- IH].
Qed.

Lemma append_assoc (a b c : string) :
  ((a ++ b) ++ c = a ++ (b ++ c))%string.
Proof. induction a as [|x a IH]; simpl; [reflexivity | now rewrite IH]. Qed.

Lemma contains_append_l (needle a b : string) :
  contains needle a = true -> contains needle (a ++ b)%string = true.
Proof.
  intros H. apply contains_iff in H. destruct H as (before & after & ->).
  apply contains_iff. exists before, (after ++ b)%string.
  now rewrite !append_assoc.
Qed.

Lemma contains_append_r (needle a b : string) :
  contains needle b = true -> contains needle (a ++ b)%string = true.
Proof.
  intros H. apply contains_iff in H. destruct H as (before & after & ->).
  apply contains_iff. exists (a ++ before)%string, after.
  now rewrite !append_assoc.
Qed.

Lemma contains_skip (needle : string) (c : ascii) (rest : string) :
  contains needle rest = true -> contains needle (String c rest) = true.
Proof. intros H. rewrite contains_cons, H. apply orb_true_r. Qed.

(** Look for the needle through the pieces a text is put together from. *)
Ltac find_in_text :=
  lazymatch goal with
  | |- contains ?n ?n = true => apply contains_refl
  | |- contains _ (String _ _) = true => apply contains_skip; find_in_text
  | |- contains _ (_ ++ _)%string = true =>
      first [ apply contains_append_l; find_in_text
            | apply contains_append_r; find_in_text ]
  end.

Lemma perfume_card_text (p : perfume) (text : string) :
  perfume_card p = Return text ->
  exists name price,
    p_name p = Some name /\ p_price p = Some price /\
    contains name text = true /\ contains price text = true /\
    (forall c, p_category p = Some c -> contains (title c) text = true) /\
    (forall d, p_description p = Some d -> contains d text = true).
Proof.
  unfold perfume_card.
  destruct (p_name p) as [name|]; [|discriminate].
  destruct (p_price p) as [price|]; [|discriminate].
  cbn [bind subscript]. cbv zeta.
  destruct (p_category p) as [c|], (p_notes p) as [[|n ns]|],
           (p_description p) as [d|];
    intros [= <-]; exists name, price;
    (split; [reflexivity|]); (split; [reflexivity|]);
    repeat split; try (intros ? [= <-]); try discriminate;
    find_in_text.
Qed.

(** X15.  A perfume card is the card of the product the entity matcher
    found, a product of the catalog; the reply carries that product, and
    its text contains the product's name and price, the title-cased
    category when there is one, and the description when there is one. *)
Theorem perfume_card_shows_the_match :
  forall (self : PerfumeAI) (message : string) (g : rng) (r : response) (g' : rng),
    generate_response self message g = Return (r, g') ->
    r_type r = "perfume_info" ->
    exists p name price,
      find_perfume self message = Some p /\ In p (perfumes self) /\
      r_perfume r = Some p /\
      p_name p = Some name /\ p_price p = Some price /\
      contains name (r_response r) = true /\
      contains price (r_response r) = true /\
      (forall c, p_category p = Some c ->
                 contains (title c) (r_response r) = true) /\
      (forall d, p_description p = Some d -> contains d (r_response r) = true).
Proof.
  intros self message g r g' Hrun Htype. revert Hrun.
  unfold generate_response.
  destruct (truthy (answer_faq self message)).
  { intros [= <- <-]. discriminate. }
  destruct (find_perfume self message) as [p|] eqn:Hfind.
  2:{ intros Hstep. exfalso. revert Hstep Htype. clear.
      unfold intent_step, fallback_step.
      repeat match goal with
             | |- context [if ?c then _ else _] => destruct c
             | |- context [match perfumes self with _ => _ end] =>
                 destruct (perfumes self)
             | |- context [let (_, _) := ?c in _] => destruct c
             | |- context [bind ?c _] => destruct c; simpl
             | |- context [match find ?f ?l with _ => _ end] =>
                 destruct (find f l)
             | |- context [match filter ?f ?l with _ => _ end] =>
                 destruct (filter f l)
             end;
        intros [= <- <-]; discriminate. }
  destruct (perfume_truthy p).
  2:{ intros Hstep. exfalso. revert Hstep Htype. clear.
      unfold intent_step, fallback_step.
      repeat match goal with
             | |- context [if ?c then _ else _] => destruct c
             | |- context [match perfumes self with _ => _ end] =>
                 destruct (perfumes self)
             | |- context [let (_, _) := ?c in _] => destruct c
             | |- context [bind ?c _] => destruct c; simpl
             | |- context [match find ?f ?l with _ => _ end] =>
                 destruct (find f l)
             | |- context [match filter ?f ?l with _ => _ end] =>
                 destruct (filter f l)
             end;
        intros [= <- <-]; discriminate. }
  destruct (perfume_card p) as [text|] eqn:Hcard; simpl; [|discriminate].
  intros [= <- <-]. simpl.
  destruct (perfume_card_text p text Hcard)
    as (name & price & Hn & Hp & Hcn & Hcp & Hcc & Hcd).
  exists p, name, price.
  repeat split; try assumption; try reflexivity.
  eapply find_perfume_In; eassumption.
Qed.

Lemma perfume_card_shows_the_match_witness :
  exists r g',
    generate_response (init (sample_perfumes, [], [])) "woody essence" []
    = Return (r, g') /\
    contains "59.99" (r_response r) = true.
Proof.
  eexists _, _. split; [reflexivity|].
  destruct (perfume_card_shows_the_match
              (init (sample_perfumes, [], [])) "woody essence" [] _ _
              eq_refl eq_refl)
    as (p & name & price & Hfind & _ & _ & _ & Hprice & _ & Hcp & _).
  injection Hfind as <-. injection Hprice as <-. exact Hcp.
Defined.

(** ** The suggestions *)

Lemma list_of_set_In (set_order : list string -> list string) (items : list string)
  (x : string) :
  rearranges set_order -> (In x (list_of_set set_order items) <-> In x items).
Proof.
  intros Hperm. unfold list_of_set. split.
  - intros H. apply (nodup_In string_dec).
    eapply Permutation_in; [symmetry; apply Hperm | exact H].
  - intros H. eapply Permutation_in; [apply Hperm|].
    now apply nodup_In.
Qed.

Lemma list_of_set_NoDup (set_order : list string -> list string) (items : list string) :
  rearranges set_order -> NoDup (list_of_set set_order items).
Proof.
  intros Hperm. unfold list_of_set.
  eapply Permutation_NoDup; [apply Hperm | apply NoDup_nodup].
Qed.

Lemma firstn_NoDup {A : Type} (n : nat) (l : list A) : NoDup l -> NoDup (firstn n l).
Proof.
  intros H. rewrite <- (firstn_skipn n l) in H.
  now apply NoDup_app_remove_r in H.
Qed.

Lemma stored_category (PERFUMES : list perfume) (f : string -> string) (c : string) :
  In c (map (fun p => f (get (p_category p) ""))
            (filter (fun p => truthy (p_category p)) PERFUMES)) <->
  exists p, In p PERFUMES /\ truthy (p_category p) = true /\
            c = f (get (p_category p) "").
Proof.
  rewrite in_map_iff. split.
  - intros (p & <- & Hp). apply filter_In in Hp. exists p. tauto.
  - intros (p & Hin & Ht & ->). exists p. split; [reflexivity|].
    apply filter_In. tauto.
Qed.

(** X16.  For a message that asks for a recommendation (and a reply that
    is neither a card nor an FAQ answer) the suggestions are at most three
    title-cased categories of the catalog, pairwise different, followed by
    "Show all" and "Prices"; when the catalog has at most three different
    title-cased categories, all of them are suggested.  Products without a
    category are skipped; nothing is raised. *)
Theorem suggested_categories_are_distinct :
  forall (set_order : list string -> list string) (PERFUMES : list perfume)
         (response_type message : string),
    rearranges set_order ->
    response_type <> "perfume_info"%string -> response_type <> "faq"%string ->
    any_in ["recommend"; "suggest"]%string (lower message) = true ->
    exists shown,
      get_suggestions set_order PERFUMES response_type message
      = Return (shown ++ ["Show all"; "Prices"]%string) /\
      (length shown <= 3)%nat /\ NoDup shown /\
      (forall c, In c shown ->
         exists p, In p PERFUMES /\ truthy (p_category p) = true /\
                   c = title (get (p_category p) "")) /\
      ((length (nodup string_dec
                  (map (fun p => title (get (p_category p) ""))
                       (filter (fun p => truthy (p_category p)) PERFUMES)))
        <= 3)%nat ->
       forall p, In p PERFUMES -> truthy (p_category p) = true ->
                 In (title (get (p_category p) "")) shown).
Proof.
  intros set_order PERFUMES response_type message Hperm Hcard Hfaq Hrec.
  unfold get_suggestions.
  apply String.eqb_neq in Hcard. apply String.eqb_neq in Hfaq.
  rewrite Hcard, Hfaq, Hrec.
  set (items := map (fun p => title (get (p_category p) ""))
                    (filter (fun p => truthy (p_category p)) PERFUMES)).
  exists (firstn 3 (list_of_set set_order items)).
  split; [reflexivity|]. split; [apply firstn_le_length|].
  split; [apply firstn_NoDup, list_of_set_NoDup, Hperm|]. split.
  - intros c Hc. apply firstn_incl in Hc.
    apply (proj1 (list_of_set_In set_order items c Hperm)) in Hc.
    now apply (proj1 (stored_category PERFUMES title c)).
  - intros Hfew p Hin Ht. rewrite firstn_all2.
    + apply (list_of_set_In set_order items _ Hperm).
      apply (stored_category PERFUMES title). eauto.
    + unfold list_of_set. now rewrite <- (Permutation_length (Hperm _)).
Qed.

Lemma suggested_categories_are_distinct_witness :
  get_suggestions (fun l => l) mixed_case_catalog "fallback" "Suggest one"
  = Return ["Floral"; "Show all"; "Prices"]%string.
Proof.
  destruct (suggested_categories_are_distinct (fun l => l) mixed_case_catalog
              "fallback" "Suggest one"
              (fun l => Permutation_refl l)
              ltac:(discriminate) ltac:(discriminate) eq_refl)
    as (shown & Hrun & _).
  reflexivity.
Defined.

Lemma map_each_present {A B : Type} (key : string) (field : A -> option B)
  (default : B) (l : list A) :
  Forall (fun x => field x <> None) l ->
  map_each (fun x => subscript key (field x)) l
  = Return (map (fun x => get (field x) default) l).
Proof.
  induction 1 as [|x l Hx _ IH]; simpl; [reflexivity|].
  destruct (field x); [|congruence]. simpl. now rewrite IH.
Qed.

Lemma map_each_absent {A B : Type} (key : string) (field : A -> option B)
  (before after : list A) (x : A) :
  Forall (fun y => field y <> None) before ->
  field x = None ->
  map_each (fun y => subscript key (field y)) (before ++ x :: after)
  = Raise (KeyError key).
Proof.
  intros Hbefore Hx. induction Hbefore as [|b before Hb _ IH]; simpl.
  - now rewrite Hx.
  - destruct (field b); [|congruence]. simpl. now rewrite IH.
Qed.

(** X17.  For a message that asks about prices (and not for a
    recommendation, the reply being neither a card nor an FAQ answer) the
    suggestions are the names of the first three products followed by "All
    prices" and "Budget options"; if one of those three products has no
    name the helper raises the [KeyError] of [name].  Products after the
    third are not looked at. *)
Theorem price_suggestions_name_the_first_three :
  forall (set_order : list string -> list string) (PERFUMES : list perfume)
         (response_type message : string),
    response_type <> "perfume_info"%string -> response_type <> "faq"%string ->
    any_in ["recommend"; "suggest"]%string (lower message) = false ->
    any_in ["price"; "how much"; "cost"]%string (lower message) = true ->
    (Forall (fun p => p_name p <> None) (firstn 3 PERFUMES) ->
     get_suggestions set_order PERFUMES response_type message
     = Return (map (fun p => get (p_name p) ""%string) (firstn 3 PERFUMES)
               ++ ["All prices"; "Budget options"]%string)) /\
    (forall before p after,
        firstn 3 PERFUMES = before ++ p :: after ->
        Forall (fun x => p_name x <> None) before ->
        p_name p = None ->
        get_suggestions set_order PERFUMES response_type message
        = Raise (KeyError "name")).
Proof.
  intros set_order PERFUMES response_type message Hcard Hfaq Hrec Hprice.
  unfold get_suggestions.
  apply String.eqb_neq in Hcard. apply String.eqb_neq in Hfaq.
  rewrite Hcard, Hfaq, Hrec, Hprice. split.
  - intros Hnamed. now rewrite (map_each_present "name" p_name ""%string _ Hnamed).
  - intros before p after Hsplit Hbefore Hp.
    now rewrite Hsplit, (map_each_absent "name" p_name before after p Hbefore Hp).
Qed.

Lemma price_suggestions_name_the_first_three_witness :
  get_suggestions (fun l => l) (default_perfumes ++ [unnamed_perfume])
    "price_info" "How much?"
  = Return ["Floral Dream"; "Woody Essence"; "Citrus Splash";
            "All prices"; "Budget options"]%string.
Proof.
  refine (proj1 (price_suggestions_name_the_first_three (fun l => l)
                   (default_perfumes ++ [unnamed_perfume])
                   "price_info" "How much?" _ _ eq_refl eq_refl) _).
  - discriminate.
  - discriminate.
  - repeat constructor; discriminate.
Defined.

(** ** [GET /categories] *)

Lemma NoDup_map_injective_on {A B : Type} (f : A -> B) (l : list A) :
  NoDup (map f l) ->
  forall x y, In x l -> In y l -> f x = f y -> x = y.
Proof.
  induction l as [|a l IH]; simpl; [intros _ x y []|].
  intros Hnodup x y Hx Hy Hxy. inversion Hnodup as [|? ? Hnotin Hrest]; subst.
  destruct Hx as [<- | Hx], Hy as [<- | Hy]; try reflexivity.
  - exfalso. apply Hnotin. rewrite Hxy. now apply in_map.
  - exfalso. apply Hnotin. rewrite <- Hxy. now apply in_map.
  - now apply IH.
Qed.

Lemma get_categories_eq (set_order : list string -> list string)
  (PERFUMES : list perfume) :
  get_categories set_order PERFUMES
  = map title
      (filter (fun c => negb (String.eqb c ""))
         (list_of_set set_order
            (map (fun p => get (p_category p) "")
                 (filter (fun p => truthy (p_category p)) PERFUMES)))).
Proof. reflexivity. Qed.

Lemma truthy_not_empty (field : option string) :
  truthy field = true -> negb (String.eqb (get field "") "") = true.
Proof. destruct field as [c|]; simpl; [trivial | discriminate]. Qed.

(** X18.  The endpoint lists exactly the title-cased forms of the
    non-empty categories present in the catalog, whatever the order in
    which the set is iterated; an empty catalog gives an empty list. *)
Theorem get_categories_lists_what_is_stored :
  forall (set_order : list string -> list string) (PERFUMES : list perfume),
    rearranges set_order ->
    forall c,
      In c (get_categories set_order PERFUMES) <->
      exists p, In p PERFUMES /\ truthy (p_category p) = true /\
                c = title (get (p_category p) "").
Proof.
  intros set_order PERFUMES Hperm c. rewrite get_categories_eq, in_map_iff.
  split.
  - intros (raw & <- & Hraw). apply filter_In in Hraw. destruct Hraw as [Hraw _].
    apply (proj1 (list_of_set_In set_order _ raw Hperm)) in Hraw.
    apply (proj1 (stored_category PERFUMES (fun x => x) raw)) in Hraw.
    destruct Hraw as (p & Hin & Ht & ->). eauto.
  - intros (p & Hin & Ht & ->). exists (get (p_category p) ""%string).
    split; [reflexivity|]. apply filter_In. split.
    + apply (list_of_set_In _ _ _ Hperm).
      apply (stored_category PERFUMES (fun x => x)). eauto.
    + now apply truthy_not_empty.
Qed.

Lemma get_categories_lists_what_is_stored_witness :
  In "Woody"%string (get_categories (fun l => l) sample_perfumes).
Proof.
  apply (proj2 (get_categories_lists_what_is_stored (fun l => l) sample_perfumes
                  (fun l => Permutation_refl l) "Woody"%string)).
  exists (nth 1 sample_perfumes (named "")).
  split; [simpl; tauto | split; reflexivity].
Defined.

(** X19.  The list has no repetition exactly when no two different
    stored categories have the same title-cased form. *)
Theorem get_categories_distinct_iff_titles_differ :
  forall (set_order : list string -> list string) (PERFUMES : list perfume),
    rearranges set_order ->
    (NoDup (get_categories set_order PERFUMES) <->
     forall p q,
       In p PERFUMES -> In q PERFUMES ->
       truthy (p_category p) = true -> truthy (p_category q) = true ->
       title (get (p_category p) "") = title (get (p_category q) "") ->
       get (p_category p) "" = get (p_category q) ""%string).
Proof.
  intros set_order PERFUMES Hperm. rewrite get_categories_eq.
  set (raw := map (fun p => get (p_category p) ""%string)
                  (filter (fun p => truthy (p_category p)) PERFUMES)).
  assert (Hin : forall p, In p PERFUMES -> truthy (p_category p) = true ->
                  In (get (p_category p) ""%string)
                     (filter (fun c => negb (String.eqb c ""))
                             (list_of_set set_order raw))).
  { intros p Hp Ht. apply filter_In. split.
    - apply (list_of_set_In _ _ _ Hperm).
      apply (stored_category PERFUMES (fun x => x)). eauto.
    - now apply truthy_not_empty. }
  split.
  - intros Hnodup p q Hp Hq Htp Htq Htitle.
    apply (NoDup_map_injective_on title _ Hnodup); auto.
  - intros Hinj. apply Finite.Injective_map_NoDup_in.
    + intros x y Hx Hy Hxy.
      apply filter_In in Hx. destruct Hx as [Hx _].
      apply filter_In in Hy. destruct Hy as [Hy _].
      apply (proj1 (list_of_set_In set_order raw x Hperm)) in Hx.
      apply (proj1 (list_of_set_In set_order raw y Hperm)) in Hy.
      apply (proj1 (stored_category PERFUMES (fun x => x) x)) in Hx.
      apply (proj1 (stored_category PERFUMES (fun x => x) y)) in Hy.
      destruct Hx as (p & Hp & Htp & ->), Hy as (q & Hq & Htq & ->).
      now apply Hinj.
    + apply NoDup_filter, list_of_set_NoDup, Hperm.
Qed.

Lemma get_categories_distinct_iff_titles_differ_witness :
  NoDup (get_categories (fun l => l) default_perfumes).
Proof.
  apply (proj2 (get_categories_distinct_iff_titles_differ (fun l => l)
                  default_perfumes (fun l => Permutation_refl l))).
  intros p q Hp Hq _ _. each_member Hp; each_member Hq;
    intros H; try reflexivity; discriminate H.
Defined.

(** ** [POST /chat] *)

Lemma generate_response_returns (self : PerfumeAI) (message : string) (g : rng) :
  Forall has_name_and_price (perfumes self) ->
  exists r g', generate_response self message g = Return (r, g').
Proof.
  intros Hwf. unfold generate_response.
  destruct (truthy (answer_faq self message)); [eauto|].
  destruct (find_perfume self message) as [p|] eqn:Hfind.
  - assert (Hp : has_name_and_price p).
    { rewrite Forall_forall in Hwf. apply Hwf.
      eapply find_perfume_In; eassumption. }
    rewrite (named_is_truthy p (proj1 Hp)).
    destruct (perfume_card_returns p Hp) as [text ->]. simpl. eauto.
  - destruct (intent_step_branches self message g Hwf) as (r & g' & -> & _).
    eauto.
Qed.

Lemma get_suggestions_returns (set_order : list string -> list string)
  (PERFUMES : list perfume) (response_type message : string) :
  Forall has_name_and_price PERFUMES ->
  exists suggestions,
    get_suggestions set_order PERFUMES response_type message = Return suggestions /\
    suggestions <> [].
Proof.
  intros Hwf. unfold get_suggestions.
  destruct (String.eqb response_type "perfume_info");
    [eexists; split; [reflexivity | discriminate]|].
  destruct (String.eqb response_type "faq");
    [eexists; split; [reflexivity | discriminate]|].
  destruct (any_in _ (lower message)).
  { eexists. split; [reflexivity|]. intros H. apply app_eq_nil in H.
    destruct H. discriminate. }
  destruct (any_in _ (lower message)).
  - rewrite (map_each_present "name" p_name ""%string).
    + simpl. eexists. split; [reflexivity|]. intros H. apply app_eq_nil in H.
      destruct H. discriminate.
    + rewrite Forall_forall in *. intros x Hx.
      apply (Hwf x). eapply firstn_incl; eassumption.
  - eexists. split; [reflexivity | discriminate].
Qed.

(** X20.  On a catalog whose products all carry a name and a price,
    [POST /chat] answers every request: never an error.  The answer has the
    text and the confidence of the reply [generate_response] produced, a
    confidence among 0.9, 0.8, 0.7 and 0.3, at least one suggestion, and
    the time stamp it was given. *)
Theorem chat_answers_on_well_formed_catalog :
  forall (set_order : list string -> list string) (ai : PerfumeAI)
         (request : ChatRequest) (now : string) (g : rng),
    Forall has_name_and_price (perfumes ai) ->
    exists out g' r,
      chat set_order ai request now g = Respond (out, g') /\
      generate_response ai (cr_message request) g = Return (r, g') /\
      c_response out = r_response r /\
      c_confidence out = r_confidence r /\
      In (c_confidence out) [0.9%Q; 0.8%Q; 0.7%Q; 0.3%Q] /\
      c_suggestions out <> [] /\
      c_timestamp out = now.
Proof.
  intros set_order ai request now g Hwf.
  destruct (generate_response_returns ai (cr_message request) g Hwf)
    as (r & g' & Hrun).
  destruct (get_suggestions_returns set_order (perfumes ai) (r_type r)
              (cr_message request) Hwf) as (suggestions & Hsugg & Hne).
  unfold chat. rewrite Hrun. simpl. rewrite Hsugg. simpl.
  eexists _, g', r. repeat split; simpl; try assumption.
  revert Hrun. clear. reply_cases ai; intros [= <- <-]; simpl; auto 6.
Qed.

Lemma chat_answers_on_well_formed_catalog_witness :
  exists out g',
    chat (fun l => l) (init (default_perfumes, [], []))
         {| cr_message := "Tell me about Citrus Splash"; cr_user_id := None |}
         "2026-01-01T00:00:00" [] = Respond (out, g') /\
    c_suggestions out <> [].
Proof.
  assert (Hwf : Forall has_name_and_price
                  (perfumes (init (default_perfumes, [], [])))).
  { repeat constructor; discriminate. }
  destruct (chat_answers_on_well_formed_catalog (fun l => l)
              (init (default_perfumes, [], []))
              {| cr_message := "Tell me about Citrus Splash"; cr_user_id := None |}
              "2026-01-01T00:00:00" [] Hwf)
    as (out & g' & r & Hchat & _ & _ & _ & _ & Hne & _).
  exists out, g'. split; assumption.
Defined.

(** X21.  The suggestions follow the message, not the branch that
    produced the reply: two reply types other than [perfume_info] and [faq]
    get the same suggestions for the same message and catalog, while
    [perfume_info] and [faq] get their fixed lists whatever the message
    and the catalog. *)
Theorem suggestions_follow_the_message :
  forall (set_order : list string -> list string) (PERFUMES : list perfume)
         (message : string),
    (forall t1 t2 : string,
        t1 <> "perfume_info"%string -> t1 <> "faq"%string ->
        t2 <> "perfume_info"%string -> t2 <> "faq"%string ->
        get_suggestions set_order PERFUMES t1 message
        = get_suggestions set_order PERFUMES t2 message) /\
    get_suggestions set_order PERFUMES "perfume_info" message
    = Return ["Similar perfumes"; "Price range"; "Show all";
              "Recommendations"]%string /\
    get_suggestions set_order PERFUMES "faq" message
    = Return ["More FAQs"; "Perfume catalog"; "Contact support"]%string.
Proof.
  intros set_order PERFUMES message. split; [|split; reflexivity].
  intros t1 t2 H1 H1' H2 H2'. unfold get_suggestions.
  apply String.eqb_neq in H1, H1', H2, H2'.
  now rewrite H1, H1', H2, H2'.
Qed.

Lemma suggestions_follow_the_message_witness :
  get_suggestions (fun l => l) default_perfumes "fallback" "what does it cost"
  = get_suggestions (fun l => l) default_perfumes "price_info" "what does it cost".
Proof.
  apply (proj1 (suggestions_follow_the_message (fun l => l) default_perfumes
                  "what does it cost")); discriminate.
Defined.

(** ** [get_suggestions] of [trainer.py] *)

(** X22.  In [trainer.py], for a message that asks for a recommendation
    the helper reads the category of every product: it raises the
    [KeyError] of [category] as soon as one product has none, where the
    helper of [bot.py] skips that product; when every product has a
    category it suggests at most three stored categories, as they are
    stored and pairwise different, followed by "Show all" and "Prices". *)
Theorem trainer_suggestions_need_every_category :
  forall (set_order : list string -> list string) (PERFUMES : list perfume)
         (response_type message : string),
    response_type <> "perfume_info"%string -> response_type <> "faq"%string ->
    any_in ["recommend"; "suggest"]%string (lower message) = true ->
    (forall before p after,
        PERFUMES = before ++ p :: after ->
        Forall (fun x => p_category x <> None) before ->
        p_category p = None ->
        Trainer.get_suggestions set_order PERFUMES response_type message
        = Raise (KeyError "category") /\
        exists shown,
          get_suggestions set_order PERFUMES response_type message = Return shown) /\
    (Forall (fun x => p_category x <> None) PERFUMES ->
     rearranges set_order ->
     exists shown,
       Trainer.get_suggestions set_order PERFUMES response_type message
       = Return (shown ++ ["Show all"; "Prices"]%string) /\
       (length shown <= 3)%nat /\ NoDup shown /\
       forall c, In c shown -> exists p, In p PERFUMES /\ p_category p = Some c).
Proof.
  intros set_order PERFUMES response_type message Hcard Hfaq Hrec.
  unfold Trainer.get_suggestions, get_suggestions.
  apply String.eqb_neq in Hcard. apply String.eqb_neq in Hfaq.
  rewrite Hcard, Hfaq, Hrec. split.
  - intros before p after -> Hbefore Hp. split; [|eauto].
    now rewrite (map_each_absent "category" p_category before after p Hbefore Hp).
  - intros Hall Hperm.
    rewrite (map_each_present "category" p_category ""%string _ Hall).
    cbn [bind]. eexists. split; [reflexivity|]. split; [apply firstn_le_length|].
    split; [apply firstn_NoDup, list_of_set_NoDup, Hperm|].
    intros c Hc. apply firstn_incl in Hc.
    apply (proj1 (list_of_set_In set_order _ c Hperm)) in Hc.
    apply in_map_iff in Hc. destruct Hc as (p & <- & Hp).
    exists p. split; [exact Hp|].
    rewrite Forall_forall in Hall. specialize (Hall p Hp).
    now destruct (p_category p).
Qed.

Lemma trainer_suggestions_need_every_category_witness :
  Trainer.get_suggestions (fun l => l) [named "Amber"] "fallback" "recommend"
  = Raise (KeyError "category").
Proof.
  refine (proj1 (proj1 (trainer_suggestions_need_every_category (fun l => l)
                          [named "Amber"] "fallback" "recommend" _ _ eq_refl)
                   [] (named "Amber") [] eq_refl (Forall_nil _) eq_refl));
    discriminate.
Defined.

(** ** Loading and matching *)

Lemma find_add_ids (f : perfume -> bool) :
  (forall p k, f (set_id p k) = f p) ->
  forall (l : list perfume) (i : Z),
    (find f l = None -> find f (add_ids i l) = None) /\
    (forall p, find f l = Some p ->
       exists j, nth_error l j = Some p /\
                 find f (add_ids i l)
                 = Some (match p_id p with
                         | Some _ => p
                         | None => set_id p (i + Z.of_nat j + 1)
                         end)).
Proof.
  intros Hblind. induction l as [|a l IH]; intros i; simpl.
  - split; [reflexivity | discriminate].
  - assert (Ha : f (match p_id a with
                    | None => set_id a (i + 1)
                    | Some _ => a
                    end) = f a) by (destruct (p_id a); [reflexivity | apply Hblind]).
    rewrite Ha. destruct (f a) eqn:Hfa.
    + split; [discriminate|]. intros p [= <-]. exists 0%nat.
      split; [reflexivity|]. simpl. now rewrite Z.add_0_r.
    + destruct (IH (i + 1)%Z) as [Hnone Hsome]. split; [exact Hnone|].
      intros p Hp. destruct (Hsome p Hp) as (j & Hj & Hfound).
      exists (S j). split; [exact Hj|]. rewrite Hfound.
      replace (i + 1 + Z.of_nat j + 1)%Z with (i + Z.of_nat (S j) + 1)%Z by lia.
      reflexivity.
Qed.

(** X23.  Numbering the products at load time does not change what the
    entity matcher finds: a query that matches nothing in the source
    matches nothing in the loaded catalog, and a query that finds a
    product of the source finds, in the loaded catalog, that same product
    with its identifier. *)
Theorem loading_keeps_entity_matches :
  forall (raw : list perfume) (fs : list faq) (ins : list intent) (query : string),
    let source := {| perfumes := raw; faqs := fs; intents := ins |} in
    let loaded := {| perfumes := add_ids 0 raw; faqs := fs; intents := ins |} in
    (find_perfume source query = None -> find_perfume loaded query = None) /\
    (forall p, find_perfume source query = Some p ->
       exists j, nth_error raw j = Some p /\
                 find_perfume loaded query = Some (with_position j p)).
Proof.
  intros raw fs ins query source loaded. unfold find_perfume. simpl.
  destruct (find_add_ids (name_matches (lower query))
              (fun p k => eq_refl) raw 0%Z) as [Hn_none Hn_some].
  destruct (find_add_ids (category_matches (lower query))
              (fun p k => eq_refl) raw 0%Z) as [Hc_none Hc_some].
  destruct (find_add_ids (note_matches (lower query))
              (fun p k => eq_refl) raw 0%Z) as [Ht_none Ht_some].
  destruct (find (name_matches (lower query)) raw) as [p|] eqn:Hn.
  { split; [discriminate|]. intros p' [= <-].
    destruct (Hn_some p eq_refl) as (j & Hj & ->). exists j. auto. }
  rewrite (Hn_none eq_refl).
  destruct (find (category_matches (lower query)) raw) as [p|] eqn:Hc.
  { split; [discriminate|]. intros p' [= <-].
    destruct (Hc_some p eq_refl) as (j & Hj & ->). exists j. auto. }
  rewrite (Hc_none eq_refl). split; [exact Ht_none|].
  intros p Hp. destruct (Ht_some p Hp) as (j & Hj & ->). exists j. auto.
Qed.

Lemma loading_keeps_entity_matches_witness :
  exists j,
    nth_error sample_perfumes j = nth_error sample_perfumes 1 /\
    find_perfume (init (add_ids 0 sample_perfumes, [], [])) "cedar"
    = option_map (with_position j) (nth_error sample_perfumes 1).
Proof.
  destruct (proj2 (loading_keeps_entity_matches sample_perfumes [] [] "cedar")
              (nth 1 sample_perfumes (named "")) eq_refl) as (j & Hj & Hfound).
  exists j. split; [exact Hj | exact Hfound].
Defined.

(** ** [GET /health] *)

(** X24.  After loading, the health endpoint reports that no perfume is
    loaded exactly when the file was not valid JSON or held an object with
    no perfume in it; a missing file counts as loaded, with the built-in
    products. *)
Theorem perfumes_loaded_after_loading :
  forall (src : source) (ps : list perfume) (fs : list faq) (ins : list intent),
    load_training_data src = Return (ps, fs, ins) ->
    (perfumes_loaded ps = false <->
     src = InvalidJSON \/
     exists data, src = Parsed (DocObject data) /\ get (td_perfumes data) [] = []).
Proof.
  intros src ps fs ins Hload.
  destruct src as [| |[data| | | | |]]; simpl in Hload; try discriminate;
    injection Hload as <- <- <-.
  - split; [discriminate|]. intros [H | (data & H & _)]; discriminate.
  - split; [auto | reflexivity].
  - unfold perfumes_loaded. rewrite add_ids_length. split.
    + intros H. right. exists data. split; [reflexivity|].
      destruct (get (td_perfumes data) []); [reflexivity | discriminate].
    + intros [H | (data' & [= <-] & ->)]; [discriminate | reflexivity].
Qed.

Lemma perfumes_loaded_after_loading_witness :
  perfumes_loaded [] = false.
Proof.
  apply (proj2 (perfumes_loaded_after_loading InvalidJSON [] [] [] eq_refl)).
  now left.
Defined.

(** ** Without products *)

(** X25.  With an empty product list every message gets a reply, and
    the reply is an FAQ answer, a greeting or the fallback: never a card,
    a recommendation, a price list or a category list. *)
Theorem empty_product_list_replies :
  forall (fs : list faq) (ins : list intent) (message : string) (g : rng),
    exists r g',
      generate_response {| perfumes := []; faqs := fs; intents := ins |} message g
      = Return (r, g') /\
      (r_type r = "faq" \/ r_type r = "greeting" \/ r_type r = "fallback") /\
      r_perfume r = None /\ r_perfumes r = None.
Proof.
  intros fs ins message g. unfold generate_response.
  destruct (truthy (answer_faq _ message)).
  { eexists _, _. split; [reflexivity|]. simpl. auto. }
  change (find_perfume {| perfumes := []; faqs := fs; intents := ins |} message)
    with (@None perfume).
  unfold intent_step, fallback_step. simpl.
  repeat match goal with
         | |- context [if ?c then _ else _] => destruct c
         | |- context [let (_, _) := ?c in _] => destruct c
         end;
    eexists _, _; (split; [reflexivity|]); simpl; auto.
Qed.

(** ** The responses stored with the intents *)

Lemma find_map_blind {A : Type} (f : A -> bool) (h : A -> A) (l : list A) :
  (forall x, f (h x) = f x) ->
  find f (map h l) = option_map h (find f l).
Proof.
  intros Hblind. induction l as [|a l IH]; simpl; [reflexivity|].
  rewrite Hblind. now destruct (f a).
Qed.

Lemma find_intent_without_responses (self : PerfumeAI) (message : string) :
  find_intent {| perfumes := perfumes self; faqs := faqs self;
                 intents := map without_responses (intents self) |} message
  = find_intent self message.
Proof.
  unfold find_intent. simpl.
  rewrite (find_map_blind (intent_matches (lower message)) without_responses)
    by reflexivity.
  now destruct (find (intent_matches (lower message)) (intents self)).
Qed.

(** X26.  The canned responses stored with the intent definitions are
    never used: erasing them from every intent changes neither the
    classification of any message nor any reply. *)
Theorem stored_responses_are_never_used :
  forall (self : PerfumeAI) (message : string) (g : rng),
    let erased := {| perfumes := perfumes self; faqs := faqs self;
                     intents := map without_responses (intents self) |} in
    find_intent erased message = find_intent self message /\
    generate_response erased message g = generate_response self message g.
Proof.
  intros self message g erased. split.
  - apply find_intent_without_responses.
  - unfold generate_response, intent_step.
    fold erased. change (answer_faq erased message) with (answer_faq self message).
    change (find_perfume erased message) with (find_perfume self message).
    change (perfumes erased) with (perfumes self).
    unfold erased. now rewrite find_intent_without_responses.
Qed.

(* ================================================================== *)
(** * The loader on any file *)
(* ================================================================== *)

(** ** The numbering loop *)



(** ** The typed loader is the loader on typed documents *)

Lemma json_has_id_encoded (p : perfume) :
  Json.has_id (Json.encode_perfume p)
  = Return (match p_id p with Some _ => true | None => false end).
Proof.
  destruct p as [[id|] [name|] [price|] [category|] [notes|] [description|]];
    reflexivity.
Qed.

Lemma json_set_id_encoded (p : perfume) (n : Z) :
  p_id p = None ->
  Json.set_id (Json.encode_perfume p) n = Return (Json.encode_perfume (set_id p n)).
Proof.
  destruct p as [[id|] [name|] [price|] [category|] [notes|] [description|]];
    simpl; intros H; try discriminate; reflexivity.
Qed.

Lemma json_add_ids_encoded (l : list perfume) (i : Z) :
  Json.add_ids i (map Json.encode_perfume l)
  = Return (map Json.encode_perfume (add_ids i l)).
Proof.
  revert i. induction l as [|p l IH]; intros i; [reflexivity|].
  cbn [map Json.add_ids add_ids]. rewrite json_has_id_encoded. cbn [bind].
  destruct (p_id p) eqn:Hid.
  - cbn [bind]. now rewrite IH.
  - rewrite (json_set_id_encoded p (i + 1) Hid). cbn [bind]. now rewrite IH.
Qed.

(** On a file holding a document of the typed loader, and with a console
    that prints, the loader returns what the typed loader returns. *)
Lemma typed_loader_agrees (data : training_data) :
  option_map Json.encode_catalog
    (match load_training_data (Parsed (DocObject data)) with
     | Return c => Some c
     | Raise _ => None
     end)
  = match Json.load_training_data Json.prints
            (Json.Holds (Json.encode_data data)) with
    | Return c => Some c
    | Raise _ => None
    end.
Proof.
  destruct data as [[ps|] [fs|] [ins|]];
    unfold Json.load_training_data, Json.encode_data, Json.dict_get;
    cbn [td_perfumes td_faqs td_intents Json.member app Json.lookup find fst snd
         String.eqb Ascii.eqb Bool.eqb option_map get bind Json.iterate];
    try rewrite json_add_ids_encoded; reflexivity.
Qed.

(** ** C8: what loading can end in *)





(* ================================================================== *)
(** * The priority chain, branch by branch *)
(* ================================================================== *)

(** ** Step 3, one intent at a time *)

(** Follow the test on the intent that [Hintent] settles. *)
Ltac pick_branch Hintent :=
  repeat match goal with
         | |- context [String.eqb (find_intent ?s ?m) ?lit] =>
             let E := fresh "E" in
             destruct (String.eqb (find_intent s m) lit) eqn:E;
             [ apply String.eqb_eq in E;
               try (rewrite Hintent in E; discriminate E)
             | apply String.eqb_neq in E;
               try (exfalso; apply E; exact Hintent) ];
             cbv beta iota
         end.

Lemma intent_step_greeting (self : PerfumeAI) (message : string) (g : rng) :
  find_intent self message = "greeting"%string ->
  exists r g', intent_step self message g = Return (r, g') /\
               r_type r = "greeting"%string /\ r_confidence r = 0.9%Q.
Proof.
  intros Hintent. unfold intent_step. pick_branch Hintent.
  destruct (choice _ greeting_responses g). eexists _, _. repeat split.
Qed.

Lemma intent_step_recommendation (self : PerfumeAI) (message : string) (g : rng) :
  find_intent self message = "recommendation"%string ->
  perfumes self <> [] ->
  Forall has_name_and_price (perfumes self) ->
  exists r g', intent_step self message g = Return (r, g') /\
               r_type r = "recommendation"%string /\ r_confidence r = 0.8%Q.
Proof.
  intros Hintent Hne Hwf. unfold intent_step. pick_branch Hintent.
  destruct (perfumes self) as [|p0 rest] eqn:Hps; [congruence|].
  rewrite <- Hps in *.
  destruct (sample (perfumes self) (Nat.min 3 (length (perfumes self))) g)
    as [recommended g'] eqn:Hsample.
  destruct (for_each_returns recommendation_line recommended) with
    (acc := ("✨ **Top Recommendations:**" ++ nl ++ nl)%string) as [text ->].
  { intros acc x Hx. apply recommendation_line_returns.
    rewrite Forall_forall in Hwf. apply Hwf.
    apply (sample_incl (Nat.min 3 (length (perfumes self))) _ g).
    now rewrite Hsample. }
  eexists _, _. repeat split.
Qed.

Lemma intent_step_price (self : PerfumeAI) (message : string) (g : rng) :
  find_intent self message = "price_inquiry"%string ->
  perfumes self <> [] ->
  Forall has_name_and_price (firstn 5 (perfumes self)) ->
  exists r g', intent_step self message g = Return (r, g') /\
               r_type r = "price_info"%string /\ r_confidence r = 0.7%Q.
Proof.
  intros Hintent Hne Hwf. unfold intent_step. pick_branch Hintent.
  destruct (perfumes self) as [|p0 rest] eqn:Hps; [congruence|].
  rewrite <- Hps in *.
  destruct (for_each_returns price_line (firstn 5 (perfumes self))) with
    (acc := ("💰 **Our Perfume Prices:**" ++ nl ++ nl)%string) as [text ->].
  { intros acc x Hx. apply price_line_returns.
    rewrite Forall_forall in Hwf. now apply Hwf. }
  eexists _, _. repeat split.
Qed.

Lemma intent_step_category (self : PerfumeAI) (message : string) (g : rng)
  (cat : string) :
  find_intent self message = "category_query"%string ->
  find (fun c => contains c (lower message)) categories = Some cat ->
  filter (in_category cat) (perfumes self) <> [] ->
  Forall has_name_and_price (filter (in_category cat) (perfumes self)) ->
  exists r g', intent_step self message g = Return (r, g') /\
               r_type r = "category_info"%string /\ r_confidence r = 0.8%Q.
Proof.
  intros Hintent Hcat Hne Hwf. unfold intent_step. pick_branch Hintent.
  rewrite Hcat.
  destruct (filter (in_category cat) (perfumes self)) as [|p0 rest] eqn:Hfilter;
    [congruence|].
  rewrite <- Hfilter in *.
  destruct (for_each_returns category_line
              (filter (in_category cat) (perfumes self))) with
    (acc := ("🌸 **" ++ title cat ++ " Perfumes:**" ++ nl ++ nl)%string)
    as [text ->].
  { intros acc x Hx. apply category_line_returns.
    rewrite Forall_forall in Hwf. now apply Hwf. }
  eexists _, _. repeat split.
Qed.

Lemma intent_step_fallback (self : PerfumeAI) (message : string) (g : rng) :
  find_intent self message <> "greeting"%string ->
  (find_intent self message = "recommendation"%string -> perfumes self = []) ->
  (find_intent self message = "price_inquiry"%string -> perfumes self = []) ->
  (find_intent self message = "category_query"%string ->
   forall cat,
     find (fun c => contains c (lower message)) categories = Some cat ->
     filter (in_category cat) (perfumes self) = []) ->
  exists r g', intent_step self message g = Return (r, g') /\
               r_type r = "fallback"%string /\ r_confidence r = 0.3%Q.
Proof.
  intros Hgreet Hrec Hprice Hcat.
  destruct (fallback_step_returns g) as (r & g' & Hfb & Htype & Hconf & _).
  exists r, g'. split; [|split; assumption].
  unfold intent_step.
  destruct (String.eqb (find_intent self message) "greeting") eqn:E1.
  { apply String.eqb_eq in E1. contradiction. }
  destruct (String.eqb (find_intent self message) "recommendation") eqn:E2.
  { apply String.eqb_eq in E2. now rewrite (Hrec E2). }
  destruct (String.eqb (find_intent self message) "price_inquiry") eqn:E3.
  { apply String.eqb_eq in E3. now rewrite (Hprice E3). }
  destruct (String.eqb (find_intent self message) "category_query") eqn:E4;
    [|exact Hfb].
  apply String.eqb_eq in E4.
  destruct (find (fun cat => contains cat (lower message)) categories)
    as [cat|] eqn:Hfind; [|exact Hfb].
  now rewrite (Hcat E4 cat eq_refl).
Qed.

Lemma generate_response_entity_miss (self : PerfumeAI) (message : string) (g : rng) :
  truthy (answer_faq self message) = false ->
  (forall p, find_perfume self message = Some p -> perfume_truthy p = false) ->
  generate_response self message g = intent_step self message g.
Proof.
  intros Hfaq Hmiss. unfold generate_response. rewrite Hfaq.
  destruct (find_perfume self message) as [p|]; [|reflexivity].
  now rewrite (Hmiss p eq_refl).
Qed.

Lemma generate_response_entity_hit (self : PerfumeAI) (message : string) (g : rng)
  (p : perfume) :
  truthy (answer_faq self message) = false ->
  find_perfume self message = Some p ->
  perfume_truthy p = true ->
  has_name_and_price p ->
  exists r, generate_response self message g = Return (r, g) /\
            r_type r = "perfume_info"%string /\ r_confidence r = 0.8%Q /\
            r_perfume r = Some p.
Proof.
  intros Hfaq Hfind Htruthy Hp. unfold generate_response.
  rewrite Hfaq, Hfind, Htruthy.
  destruct (perfume_card_returns p Hp) as [text ->].
  eexists. repeat split.
Qed.

(** ** The category list is out of reach of a loaded catalog *)

Lemma lower_category (cat : string) : In cat categories -> lower cat = cat.
Proof. intros H. each_member H; reflexivity. Qed.

Lemma intent_step_category_info (self : PerfumeAI) (message : string) (g : rng)
  (r : response) (g' : rng) :
  intent_step self message g = Return (r, g') ->
  r_type r = "category_info"%string ->
  exists cat p,
    In cat categories /\ contains cat (lower message) = true /\
    In p (perfumes self) /\ p_category p = Some cat.
Proof.
  unfold intent_step, fallback_step.
  destruct (String.eqb (find_intent self message) "greeting").
  { destruct (choice _ _ g). intros [= <- <-]. discriminate. }
  destruct (String.eqb (find_intent self message) "recommendation").
  { destruct (perfumes self).
    - destruct (choice _ _ g). intros [= <- <-]. discriminate.
    - destruct (sample _ _ g). destruct (for_each _ _ _); simpl;
        intros [= <- <-]; discriminate. }
  destruct (String.eqb (find_intent self message) "price_inquiry").
  { destruct (perfumes self).
    - destruct (choice _ _ g). intros [= <- <-]. discriminate.
    - destruct (for_each _ _ _); simpl; intros [= <- <-]; discriminate. }
  destruct (String.eqb (find_intent self message) "category_query").
  2:{ destruct (choice _ _ g). intros [= <- <-]. discriminate. }
  destruct (find (fun cat => contains cat (lower message)) categories)
    as [cat|] eqn:Hfind.
  2:{ destruct (choice _ _ g). intros [= <- <-]. discriminate. }
  destruct (filter (in_category cat) (perfumes self)) as [|p rest] eqn:Hfilter.
  { destruct (choice _ _ g). intros [= <- <-]. discriminate. }
  intros _ _. apply find_some in Hfind. destruct Hfind as [Hin Hcontains].
  assert (Hp : In p (filter (in_category cat) (perfumes self)))
    by (rewrite Hfilter; now left).
  apply filter_In in Hp. destruct Hp as [Hp Hcat].
  exists cat, p. repeat split; try assumption.
  unfold in_category in Hcat. destruct (p_category p) as [c|]; [|discriminate].
  apply String.eqb_eq in Hcat. now subst.
Qed.

Lemma category_reply_needs_empty_match (self : PerfumeAI) (message : string)
  (g : rng) (r : response) (g' : rng) :
  generate_response self message g = Return (r, g') ->
  r_type r = "category_info"%string ->
  exists x, find_perfume self message = Some x /\ perfume_truthy x = false.
Proof.
  unfold generate_response.
  destruct (truthy (answer_faq self message)).
  { intros [= <- <-]. discriminate. }
  destruct (find_perfume self message) as [x|] eqn:Hfind.
  - destruct (perfume_truthy x) eqn:Hx; [|eauto].
    destruct (perfume_card x); simpl; intros [= <- <-]; discriminate.
  - intros Hstep Htype. exfalso.
    destruct (intent_step_category_info _ _ _ _ _ Hstep Htype)
      as (cat & p & Hcat & Hcontains & Hp & Hpc).
    revert Hfind. unfold find_perfume.
    destruct (find (name_matches _) _); [discriminate|].
    destruct (find (category_matches (lower message)) (perfumes self)) eqn:Hc;
      [discriminate|].
    intros _. apply (find_not_none _ _ p Hp) in Hc; [assumption|].
    unfold category_matches. rewrite Hpc. simpl.
    now rewrite (lower_category cat Hcat).
Qed.

(** ** C1: the priority chain of [generate_response] *)

(** The FAQ matcher finds the FAQ "Delivery times" for the message below
    and returns its answer, which is empty; the reply is not an FAQ answer
    but the fallback, with confidence 0.3. *)
Lemma faq_match_without_answer_counterexample :
  let self := init ([], [unanswered_faq], []) in
  let message := "delivery"%string in
  faq_matches (lower message) unanswered_faq = true /\
  answer_faq self message = Some ""%string /\
  exists r g',
    generate_response self message [] = Return (r, g') /\
    r_type r = "fallback"%string /\ r_confidence r = 0.3%Q /\
    r_type r <> "faq"%string.
Proof.
  cbv zeta. split; [reflexivity|]. split; [reflexivity|].
  eexists _, _. split; [reflexivity|]. simpl.
  split; [reflexivity|]. split; [reflexivity | discriminate].
Qed.

(** C1, amended.  The chain stops at the first success, and every branch
    has its own type and confidence.
    - A non-empty answer of the FAQ matcher gives [faq], 0.9, with that
      answer as text; an answer that is empty or missing counts as a miss.
    - Otherwise a product returned by the entity matcher, if it is not the
      empty dict, gives [perfume_info], 0.8.
    - Otherwise the intent decides: [greeting] gives 0.9;
      [recommendation] gives 0.8 and [price_inquiry] gives [price_info],
      0.7, when there are products; [category_query] gives
      [category_info], 0.8, when the first category word of the message has
      products; every other case gives [fallback], 0.3.
    A branch that prints products needs them to have a name and a price.
    The [category_info] branch can only be taken after the entity matcher
    returned an empty dict: on a catalog without one, as every loaded
    catalog is, no reply is a category list. *)
Theorem generate_response_priority_chain :
  forall (self : PerfumeAI) (message : string) (g : rng),
    (truthy (answer_faq self message) = true ->
       exists r,
         generate_response self message g = Return (r, g) /\
         r_type r = "faq"%string /\ r_confidence r = 0.9%Q /\
         answer_faq self message = Some (r_response r)) /\
    (truthy (answer_faq self message) = false ->
       (forall p,
           find_perfume self message = Some p ->
           perfume_truthy p = true ->
           has_name_and_price p ->
           exists r,
             generate_response self message g = Return (r, g) /\
             r_type r = "perfume_info"%string /\ r_confidence r = 0.8%Q /\
             r_perfume r = Some p) /\
       ((forall p, find_perfume self message = Some p ->
                   perfume_truthy p = false) ->
          (find_intent self message = "greeting"%string ->
             exists r g',
               generate_response self message g = Return (r, g') /\
               r_type r = "greeting"%string /\ r_confidence r = 0.9%Q) /\
          (find_intent self message = "recommendation"%string ->
           perfumes self <> [] ->
           Forall has_name_and_price (perfumes self) ->
             exists r g',
               generate_response self message g = Return (r, g') /\
               r_type r = "recommendation"%string /\ r_confidence r = 0.8%Q) /\
          (find_intent self message = "price_inquiry"%string ->
           perfumes self <> [] ->
           Forall has_name_and_price (firstn 5 (perfumes self)) ->
             exists r g',
               generate_response self message g = Return (r, g') /\
               r_type r = "price_info"%string /\ r_confidence r = 0.7%Q) /\
          (find_intent self message = "category_query"%string ->
           forall cat,
             find (fun c => contains c (lower message)) categories = Some cat ->
             filter (in_category cat) (perfumes self) <> [] ->
             Forall has_name_and_price
                    (filter (in_category cat) (perfumes self)) ->
             exists r g',
               generate_response self message g = Return (r, g') /\
               r_type r = "category_info"%string /\ r_confidence r = 0.8%Q) /\
          (find_intent self message <> "greeting"%string ->
           (find_intent self message = "recommendation"%string ->
              perfumes self = []) ->
           (find_intent self message = "price_inquiry"%string ->
              perfumes self = []) ->
           (find_intent self message = "category_query"%string ->
              forall cat,
                find (fun c => contains c (lower message)) categories
                  = Some cat ->
                filter (in_category cat) (perfumes self) = []) ->
           exists r g',
             generate_response self message g = Return (r, g') /\
             r_type r = "fallback"%string /\ r_confidence r = 0.3%Q))) /\
    ((forall x, In x (perfumes self) -> perfume_truthy x = true) ->
     forall r g',
       generate_response self message g = Return (r, g') ->
       r_type r <> "category_info"%string).
Proof.
  intros self message g. split; [|split].
  - intros Hfaq. unfold generate_response. rewrite Hfaq.
    eexists. split; [reflexivity|]. simpl. repeat split.
    destruct (answer_faq self message); [reflexivity | discriminate].
  - intros Hfaq. split.
    + intros p Hfind Htruthy Hp.
      now apply generate_response_entity_hit.
    + intros Hmiss.
      rewrite (generate_response_entity_miss self message g Hfaq Hmiss).
      split; [apply intent_step_greeting|].
      split; [apply intent_step_recommendation|].
      split; [apply intent_step_price|].
      split; [|apply intent_step_fallback].
      intros Hintent cat. now apply intent_step_category.
  - intros Hall r g' Hrun Htype.
    destruct (category_reply_needs_empty_match _ _ _ _ _ Hrun Htype)
      as (x & Hfind & Hx).
    rewrite (Hall x (find_perfume_In _ _ _ Hfind)) in Hx. discriminate.
Qed.

(** The chain on the sample data, one message for each branch; the
    category list needs a catalog that starts with an empty dict. *)
Lemma generate_response_priority_chain_witness :
  let sample := init (sample_perfumes, sample_faqs, sample_intents) in
  (exists r,
      generate_response sample "how long does it last" [] = Return (r, []) /\
      r_type r = "faq"%string /\ r_confidence r = 0.9%Q /\
      answer_faq sample "how long does it last" = Some (r_response r)) /\
  (exists r,
      generate_response sample "Woody Essence" [] = Return (r, []) /\
      r_type r = "perfume_info"%string /\ r_confidence r = 0.8%Q /\
      r_perfume r = nth_error sample_perfumes 1) /\
  (exists r g',
      generate_response sample "hello" [] = Return (r, g') /\
      r_type r = "greeting"%string /\ r_confidence r = 0.9%Q) /\
  (exists r g',
      generate_response sample "recommend a perfume" [] = Return (r, g') /\
      r_type r = "recommendation"%string /\ r_confidence r = 0.8%Q) /\
  (exists r g',
      generate_response sample "cost" [] = Return (r, g') /\
      r_type r = "price_info"%string /\ r_confidence r = 0.7%Q) /\
  (exists r g',
      generate_response
        (init ([empty_perfume; categorised "Spring" "floral"], [], []))
        "floral" [] = Return (r, g') /\
      r_type r = "category_info"%string /\ r_confidence r = 0.8%Q) /\
  (exists r g',
      generate_response sample "see you tomorrow" [] = Return (r, g') /\
      r_type r = "fallback"%string /\ r_confidence r = 0.3%Q).
Proof.
  cbv zeta.
  assert (Hwf : Forall has_name_and_price sample_perfumes)
    by (repeat constructor; discriminate).
  assert (Hnone : forall q p, @None perfume = Some p -> q = false)
    by (intros q p H; discriminate H).
  split; [|split; [|split; [|split; [|split; [|split]]]]].
  - destruct (generate_response_priority_chain
                (init (sample_perfumes, sample_faqs, sample_intents))
                "how long does it last" [])
      as (Hfaq & _ & _).
    now apply Hfaq.
  - destruct (generate_response_priority_chain
                (init (sample_perfumes, sample_faqs, sample_intents))
                "Woody Essence" [])
      as (_ & Hrest & _).
    destruct (Hrest eq_refl) as [Hentity _].
    apply (Hentity (nth 1 sample_perfumes empty_perfume) eq_refl eq_refl).
    split; discriminate.
  - destruct (generate_response_priority_chain
                (init (sample_perfumes, sample_faqs, sample_intents)) "hello" [])
      as (_ & Hrest & _).
    destruct (Hrest eq_refl) as [_ Hintents].
    destruct Hintents as (Hgreeting & _); [intros p; apply Hnone|].
    now apply Hgreeting.
  - destruct (generate_response_priority_chain
                (init (sample_perfumes, sample_faqs, sample_intents))
                "recommend a perfume" [])
      as (_ & Hrest & _).
    destruct (Hrest eq_refl) as [_ Hintents].
    destruct Hintents as (_ & Hrecommend & _); [intros p; apply Hnone|].
    apply Hrecommend; [reflexivity | discriminate | exact Hwf].
  - destruct (generate_response_priority_chain
                (init (sample_perfumes, sample_faqs, sample_intents))
                "cost" [])
      as (_ & Hrest & _).
    destruct (Hrest eq_refl) as [_ Hintents].
    destruct Hintents as (_ & _ & Hprice & _); [intros p; apply Hnone|].
    apply Hprice; [reflexivity | discriminate | exact Hwf].
  - destruct (generate_response_priority_chain
                (init ([empty_perfume; categorised "Spring" "floral"], [], []))
                "floral" [])
      as (_ & Hrest & _).
    destruct (Hrest eq_refl) as [_ Hintents].
    destruct Hintents as (_ & _ & _ & Hcategory & _).
    { intros p H. injection H as <-. reflexivity. }
    apply (Hcategory eq_refl "floral"%string eq_refl).
    + discriminate.
    + repeat constructor; discriminate.
  - destruct (generate_response_priority_chain
                (init (sample_perfumes, sample_faqs, sample_intents))
                "see you tomorrow" [])
      as (_ & Hrest & _).
    destruct (Hrest eq_refl) as [_ Hintents].
    destruct Hintents as (_ & _ & _ & _ & Hfallback); [intros p; apply Hnone|].
    apply Hfallback; intros H; discriminate H.
Defined.

(** No loaded catalog ever gets a category list. *)
Lemma no_category_list_on_loaded_catalog (src : source) (ps : list perfume)
  (fs : list faq) (ins : list intent) (message : string) (g : rng)
  (r : response) (g' : rng) :
  load_training_data src = Return (ps, fs, ins) ->
  generate_response (init (ps, fs, ins)) message g = Return (r, g') ->
  r_type r <> "category_info"%string.
Proof.
  intros Hload Hrun Htype.
  destruct (category_reply_needs_empty_match _ _ _ _ _ Hrun Htype)
    as (x & Hfind & Hx).
  pose proof (loaded_all_identified _ _ _ _ Hload) as Hall.
  rewrite Forall_forall in Hall.
  rewrite (identified_is_truthy x (Hall x (find_perfume_In _ _ _ Hfind))) in Hx.
  discriminate.
Qed.

(** ** C9: when the reply is an FAQ answer *)


